(** * MovieLens 100K cleaning pipeline: [data_cleaning_complete.py]

    A shallow embedding of the cleaning and integration script and the
    properties its specification states.

    Modelling conventions.
    - Integer columns ([user_id], [item_id], [rating], [age], the genre
      flags) are [Z]; a text cell is [option string], [None] being the
      null (NaN) of the frame; text is a sequence of 8-bit characters
      and case mapping acts on the ASCII letters.
    - A frame is the list of its rows in row order.  Columns that a
      cleaner adds ([release_year], [genres], [age_group]) are fields
      that hold [None] until the cleaner has run.
    - The [timestamp] column carries its column type ([Int64] epoch
      seconds, or [Datetime64] nanoseconds since the epoch).
    - The ratings cleaner is given twice: [clean_ratings_data] on frames
      of integers, which the later stages take, and
      [Loaded.clean_ratings_data] on frames whose cells may be null and
      whose instants are 64-bit, as the loader can return them; the two
      agree on a frame without nulls whose epoch seconds are in range
      ([clean_ratings_data_agree]).
    - Means and the sparsity are exact rationals ([Q]) where the script
      computes in binary floating point.
    - A file is its text.  Library entry points whose code is not part
      of the script (the tokenizer of [pd.read_csv], the date parser
      behind [pd.to_datetime], the column typing, the rendering of
      [to_csv]) are parameters of the definitions using them. *)

From Stdlib Require Import ZArith List Bool Lia Ascii String QArith DecimalString
  Lqa.
Import ListNotations.

Open Scope Z_scope.

(* ================================================================= *)
(** * Part I. Definitions *)
(* ================================================================= *)

(** ** Text helpers (the [.str] accessor of the script) *)

Module Str.

Definition chars (s : string) : list ascii := list_ascii_of_string s.
Definition of_chars (l : list ascii) : string := string_of_list_ascii l.

Definition code (c : ascii) : N := N_of_ascii c.

Definition between (lo hi : N) (c : ascii) : bool :=
  (N.leb lo (code c) && N.leb (code c) hi)%bool.

(** [str.isspace] on one character: tab to carriage return, the four
    separators 0x1c-0x1f, the space, and 0x85 and 0xa0. *)
Definition isspace (c : ascii) : bool :=
  (between 9 13 c || between 28 32 c
   || N.eqb (code c) 133 || N.eqb (code c) 160)%bool.

Definition isdigit (c : ascii) : bool := between 48 57 c.
Definition isupper (c : ascii) : bool := between 65 90 c.
Definition islower (c : ascii) : bool := between 97 122 c.

Fixpoint dropWhile {A} (p : A -> bool) (l : list A) : list A :=
  match l with
  | [] => []
  | x :: t => if p x then dropWhile p t else l
  end.

Definition lstrip (l : list ascii) : list ascii := dropWhile isspace l.
Definition rstrip (l : list ascii) : list ascii :=
  rev (dropWhile isspace (rev l)).

(** [s.strip()] *)
Definition strip (s : string) : string :=
  of_chars (rstrip (lstrip (chars s))).

Definition lower_char (c : ascii) : ascii :=
  if isupper c then ascii_of_N (code c + 32) else c.
Definition upper_char (c : ascii) : ascii :=
  if islower c then ascii_of_N (code c - 32) else c.

(** [s.lower()] and [s.upper()] *)
Definition lower (s : string) : string := of_chars (map lower_char (chars s)).
Definition upper (s : string) : string := of_chars (map upper_char (chars s)).

(** [sep.join(parts)] *)
Fixpoint join (sep : string) (parts : list string) : string :=
  match parts with
  | [] => EmptyString
  | [p] => p
  | p :: rest => (p ++ sep ++ join sep rest)%string
  end.

(** The character class [[0-9A-Za-z\-]] of the release-date regex. *)
Definition in_date_class (c : ascii) : bool :=
  (isdigit c || isupper c || islower c || N.eqb (code c) 45)%bool.

(** Line 49: every character outside the class is removed. *)
Definition keep_date_chars (s : string) : string :=
  of_chars (filter in_date_class (chars s)).

Definition digit_val (c : ascii) : Z := Z.of_N (code c) - 48.

(** [re.search(r'\((\d{4})\)$', s)] followed by [pd.to_numeric] of the
    group: [$] matches at the end of the text or just before one final
    newline, so the six characters "(dddd)" are looked for at the end
    of the text with one final newline removed. *)
Definition year_suffix (rev_chars : list ascii) : option Z :=
  match rev_chars with
  | rp :: d4 :: d3 :: d2 :: d1 :: lp :: _ =>
      if (N.eqb (code rp) 41 && N.eqb (code lp) 40
          && isdigit d1 && isdigit d2 && isdigit d3 && isdigit d4)%bool
      then Some (1000 * digit_val d1 + 100 * digit_val d2
                 + 10 * digit_val d3 + digit_val d4)
      else None
  | _ => None
  end.

Definition extract_year (s : string) : option Z :=
  match rev (chars s) with
  | c :: rest =>
      if N.eqb (code c) 10 then year_suffix rest else year_suffix (c :: rest)
  | [] => None
  end.

End Str.

(** A text cell of a frame: a string, or the null. *)
Definition cell := option string.

(** ** [DataFrame.drop_duplicates] *)

Section DropDuplicates.
Context {A K : Type} (key_eqb : K -> K -> bool) (key : A -> K).

Definition seen_key (k : K) (seen : list K) : bool := existsb (key_eqb k) seen.

(** One scan in row order; a row is kept when its key has not been
    met yet ([keep="first"]). *)
Fixpoint drop_dups_from (seen : list K) (rows : list A) : list A :=
  match rows with
  | [] => []
  | r :: rest =>
      if seen_key (key r) seen then drop_dups_from seen rest
      else r :: drop_dups_from (key r :: seen) rest
  end.

Definition drop_duplicates_by (rows : list A) : list A :=
  drop_dups_from [] rows.
End DropDuplicates.

(** ** Ratings *)

(** Type of the [timestamp] column. *)
Inductive ts_dtype := Int64 | Datetime64.

Module Rating.
Record t := mk {
  user_id : Z;
  item_id : Z;
  rating : Z;
  timestamp : Z
}.

Definition eqb (a b : t) : bool :=
  (Z.eqb (user_id a) (user_id b) && Z.eqb (item_id a) (item_id b)
   && Z.eqb (rating a) (rating b) && Z.eqb (timestamp a) (timestamp b))%bool.

Definition set_timestamp (r : t) (v : Z) : t :=
  mk (user_id r) (item_id r) (rating r) v.
End Rating.

Record ratings_frame := mkRatings {
  ts_kind : ts_dtype;
  rows : list Rating.t
}.

(** [ratings.drop_duplicates()]: equality of whole rows. *)
Definition drop_duplicates (l : list Rating.t) : list Rating.t :=
  drop_duplicates_by Rating.eqb (fun r => r) l.

(** [(ratings['rating'] < 1) | (ratings['rating'] > 5)] *)
Definition invalid_rating (r : Rating.t) : bool :=
  ((Rating.rating r <? 1) || (Rating.rating r >? 5))%bool.

(** [(ratings['rating'] >= 1) & (ratings['rating'] <= 5)] *)
Definition valid_rating (r : Rating.t) : bool :=
  ((Rating.rating r >=? 1) && (Rating.rating r <=? 5))%bool.

(** [pd.to_datetime(column, unit='s')]: epoch seconds become nanoseconds
    since the epoch; a column that already holds instants is returned as
    it is. *)
Definition to_datetime_s (k : ts_dtype) (v : Z) : Z :=
  match k with
  | Int64 => v * 1000000000
  | Datetime64 => v
  end.

Definition clean_ratings_data (ratings : ratings_frame) : ratings_frame :=
  (* Remove duplicates *)
  let deduped := drop_duplicates (rows ratings) in
  (* Check for invalid ratings *)
  let invalid_ratings := filter invalid_rating deduped in
  let kept :=
    if (0 <? Z.of_nat (List.length invalid_ratings))
    then filter valid_rating deduped
    else deduped in
  (* Convert timestamp to datetime *)
  mkRatings Datetime64
    (map (fun r => Rating.set_timestamp r
                     (to_datetime_s (ts_kind ratings) (Rating.timestamp r)))
         kept).

(** ** Items *)

(** The nineteen genre columns, in the order of [genre_cols]. *)
Inductive genre :=
  | gUnknown | gAction | gAdventure | gAnimation | gChildrens | gComedy
  | gCrime | gDocumentary | gDrama | gFantasy | gFilmNoir | gHorror
  | gMusical | gMystery | gRomance | gSciFi | gThriller | gWar | gWestern.

Definition genre_name (g : genre) : string :=
  match g with
  | gUnknown => "unknown" | gAction => "Action" | gAdventure => "Adventure"
  | gAnimation => "Animation" | gChildrens => "Children's"
  | gComedy => "Comedy" | gCrime => "Crime" | gDocumentary => "Documentary"
  | gDrama => "Drama" | gFantasy => "Fantasy" | gFilmNoir => "Film-Noir"
  | gHorror => "Horror" | gMusical => "Musical" | gMystery => "Mystery"
  | gRomance => "Romance" | gSciFi => "Sci-Fi" | gThriller => "Thriller"
  | gWar => "War" | gWestern => "Western"
  end%string.

Definition genre_cols : list genre :=
  [gUnknown; gAction; gAdventure; gAnimation; gChildrens; gComedy;
   gCrime; gDocumentary; gDrama; gFantasy; gFilmNoir; gHorror;
   gMusical; gMystery; gRomance; gSciFi; gThriller; gWar; gWestern].

(** A calendar date, the value of a parsed [release_date]. *)
Record date := mkDate { d_year : Z; d_month : Z; d_day : Z }.

Module Item.
Record flags := mkFlags {
  unknown : Z; Action : Z; Adventure : Z; Animation : Z; Childrens : Z;
  Comedy : Z; Crime : Z; Documentary : Z; Drama : Z; Fantasy : Z;
  Film_Noir : Z; Horror : Z; Musical : Z; Mystery : Z; Romance : Z;
  Sci_Fi : Z; Thriller : Z; War : Z; Western : Z
}.

Record t := mk {
  item_id : Z;
  movie_title : cell;
  release_date : option date;
  video_release_date : cell;
  IMDb_URL : cell;
  genre_flags : flags;
  release_year : option Z;
  genres : cell
}.

(** [row[genre]] *)
Definition flag (f : flags) (g : genre) : Z :=
  match g with
  | gUnknown => unknown f | gAction => Action f | gAdventure => Adventure f
  | gAnimation => Animation f | gChildrens => Childrens f
  | gComedy => Comedy f | gCrime => Crime f | gDocumentary => Documentary f
  | gDrama => Drama f | gFantasy => Fantasy f | gFilmNoir => Film_Noir f
  | gHorror => Horror f | gMusical => Musical f | gMystery => Mystery f
  | gRomance => Romance f | gSciFi => Sci_Fi f | gThriller => Thriller f
  | gWar => War f | gWestern => Western f
  end.

(** [items[col] = v] on one row *)
Definition set_flag (f : flags) (g : genre) (v : Z) : flags :=
  let '(mkFlags a0 a1 a2 a3 a4 a5 a6 a7 a8 a9 a10 a11 a12 a13 a14 a15 a16 a17 a18) := f in
  match g with
  | gUnknown => mkFlags v a1 a2 a3 a4 a5 a6 a7 a8 a9 a10 a11 a12 a13 a14 a15 a16 a17 a18
  | gAction => mkFlags a0 v a2 a3 a4 a5 a6 a7 a8 a9 a10 a11 a12 a13 a14 a15 a16 a17 a18
  | gAdventure => mkFlags a0 a1 v a3 a4 a5 a6 a7 a8 a9 a10 a11 a12 a13 a14 a15 a16 a17 a18
  | gAnimation => mkFlags a0 a1 a2 v a4 a5 a6 a7 a8 a9 a10 a11 a12 a13 a14 a15 a16 a17 a18
  | gChildrens => mkFlags a0 a1 a2 a3 v a5 a6 a7 a8 a9 a10 a11 a12 a13 a14 a15 a16 a17 a18
  | gComedy => mkFlags a0 a1 a2 a3 a4 v a6 a7 a8 a9 a10 a11 a12 a13 a14 a15 a16 a17 a18
  | gCrime => mkFlags a0 a1 a2 a3 a4 a5 v a7 a8 a9 a10 a11 a12 a13 a14 a15 a16 a17 a18
  | gDocumentary => mkFlags a0 a1 a2 a3 a4 a5 a6 v a8 a9 a10 a11 a12 a13 a14 a15 a16 a17 a18
  | gDrama => mkFlags a0 a1 a2 a3 a4 a5 a6 a7 v a9 a10 a11 a12 a13 a14 a15 a16 a17 a18
  | gFantasy => mkFlags a0 a1 a2 a3 a4 a5 a6 a7 a8 v a10 a11 a12 a13 a14 a15 a16 a17 a18
  | gFilmNoir => mkFlags a0 a1 a2 a3 a4 a5 a6 a7 a8 a9 v a11 a12 a13 a14 a15 a16 a17 a18
  | gHorror => mkFlags a0 a1 a2 a3 a4 a5 a6 a7 a8 a9 a10 v a12 a13 a14 a15 a16 a17 a18
  | gMusical => mkFlags a0 a1 a2 a3 a4 a5 a6 a7 a8 a9 a10 a11 v a13 a14 a15 a16 a17 a18
  | gMystery => mkFlags a0 a1 a2 a3 a4 a5 a6 a7 a8 a9 a10 a11 a12 v a14 a15 a16 a17 a18
  | gRomance => mkFlags a0 a1 a2 a3 a4 a5 a6 a7 a8 a9 a10 a11 a12 a13 v a15 a16 a17 a18
  | gSciFi => mkFlags a0 a1 a2 a3 a4 a5 a6 a7 a8 a9 a10 a11 a12 a13 a14 v a16 a17 a18
  | gThriller => mkFlags a0 a1 a2 a3 a4 a5 a6 a7 a8 a9 a10 a11 a12 a13 a14 a15 v a17 a18
  | gWar => mkFlags a0 a1 a2 a3 a4 a5 a6 a7 a8 a9 a10 a11 a12 a13 a14 a15 a16 v a18
  | gWestern => mkFlags a0 a1 a2 a3 a4 a5 a6 a7 a8 a9 a10 a11 a12 a13 a14 a15 a16 a17 v
  end.

Definition set_movie_title (r : t) (v : cell) : t :=
  mk (item_id r) v (release_date r) (video_release_date r) (IMDb_URL r)
     (genre_flags r) (release_year r) (genres r).
Definition set_release_year (r : t) (v : option Z) : t :=
  mk (item_id r) (movie_title r) (release_date r) (video_release_date r)
     (IMDb_URL r) (genre_flags r) v (genres r).
Definition set_genre_flags (r : t) (v : flags) : t :=
  mk (item_id r) (movie_title r) (release_date r) (video_release_date r)
     (IMDb_URL r) v (release_year r) (genres r).
Definition set_genres (r : t) (v : cell) : t :=
  mk (item_id r) (movie_title r) (release_date r) (video_release_date r)
     (IMDb_URL r) (genre_flags r) (release_year r) v.
End Item.

(** [column.astype(int)] on a column of integers. *)
Definition astype_int (v : Z) : Z := v.

(** The inner function of [clean_items_data]: the loop appends, in the
    order of [genre_cols[1:]], each name whose flag is 1. *)
Definition get_genres (row : Item.t) : string :=
  let genres :=
    fold_left
      (fun (genres : list string) (g : genre) =>
         if Item.flag (Item.genre_flags row) g =? 1
         then genres ++ [genre_name g] else genres)
      (tl genre_cols) [] in
  match genres with
  | [] => "Unknown"%string
  | _ => Str.join ", " genres
  end.

Definition clean_items_data (items : list Item.t) : list Item.t :=
  (* Remove duplicates *)
  let items := drop_duplicates_by Z.eqb Item.item_id items in
  (* Clean movie titles *)
  let items :=
    map (fun r => Item.set_movie_title r
                    (option_map Str.strip (Item.movie_title r))) items in
  (* Extract year from movie title *)
  let items :=
    map (fun r => Item.set_release_year r
                    (match Item.movie_title r with
                     | Some s => Str.extract_year s
                     | None => None
                     end)) items in
  (* Clean genre columns *)
  let items :=
    fold_left
      (fun (fr : list Item.t) (col : genre) =>
         map (fun r => Item.set_genre_flags r
                 (Item.set_flag (Item.genre_flags r) col
                    (astype_int (Item.flag (Item.genre_flags r) col)))) fr)
      genre_cols items in
  (* Create genre list for each movie *)
  map (fun r => Item.set_genres r (Some (get_genres r))) items.

(** ** Users *)

Module User.
Record t := mk {
  user_id : Z;
  age : Z;
  gender : cell;
  occupation : cell;
  zip_code : cell;
  age_group : cell
}.

Definition set_occupation (r : t) (v : cell) : t :=
  mk (user_id r) (age r) (gender r) v (zip_code r) (age_group r).
Definition set_gender (r : t) (v : cell) : t :=
  mk (user_id r) (age r) v (occupation r) (zip_code r) (age_group r).
Definition set_age_group (r : t) (v : cell) : t :=
  mk (user_id r) (age r) (gender r) (occupation r) (zip_code r) v.
End User.

Definition categorize_age (age : Z) : string :=
  if age <? 18 then "Under 18"
  else if age <? 25 then "18-24"
  else if age <? 35 then "25-34"
  else if age <? 50 then "35-49"
  else if age <? 65 then "50-64"
  else "65+".

Definition clean_users_data (users : list User.t) : list User.t :=
  (* Remove duplicates *)
  let users := drop_duplicates_by Z.eqb User.user_id users in
  (* Clean occupation *)
  let users :=
    map (fun r => User.set_occupation r
                    (option_map Str.lower
                       (option_map Str.strip (User.occupation r)))) users in
  (* Clean gender *)
  let users :=
    map (fun r => User.set_gender r (option_map Str.upper (User.gender r)))
        users in
  (* Create age groups *)
  map (fun r => User.set_age_group r (Some (categorize_age (User.age r))))
      users.

(** ** Integration: [DataFrame.merge(..., how='left')] *)

Section Merge.
Context {L R O : Type}.
Variables (left_key : L -> Z) (right_key : R -> Z).
Variables (matched : L -> R -> O) (unmatched : L -> O).

(** The rows of the right frame whose key equals that of a left row. *)
Definition matches (l : L) (right : list R) : list R :=
  filter (fun r => right_key r =? left_key l) right.

(** Left join: the left rows in their order, each paired with every
    matching right row, or kept once with nulls when none matches. *)
Definition merge_left (left : list L) (right : list R) : list O :=
  flat_map
    (fun l =>
       match matches l right with
       | [] => [unmatched l]
       | ms => map (matched l) ms
       end)
    left.
(** The row a left join makes of one left row when the right keys are
    unique. *)
Definition join_one (right : list R) (l : L) : O :=
  match find (fun r => right_key r =? left_key l) right with
  | Some r => matched l r
  | None => unmatched l
  end.
End Merge.

(** A rating row with the three item columns brought in by the first
    join. *)
Module RatedItem.
Record t := mk {
  base : Rating.t;
  movie_title : cell;
  release_year : option Z;
  genres : cell
}.
End RatedItem.

(** A row of [final_data]. *)
Module Final.
Record t := mk {
  user_id : Z;
  item_id : Z;
  rating : Z;
  timestamp : Z;
  movie_title : cell;
  release_year : option Z;
  genres : cell;
  age : option Z;
  gender : cell;
  occupation : cell;
  age_group : cell
}.

(** The columns that come from the ratings frame. *)
Definition rating_part (r : t) : Rating.t :=
  Rating.mk (user_id r) (item_id r) (rating r) (timestamp r).
End Final.

Definition with_item (r : Rating.t) (i : Item.t) : RatedItem.t :=
  RatedItem.mk r (Item.movie_title i) (Item.release_year i) (Item.genres i).

Definition without_item (r : Rating.t) : RatedItem.t :=
  RatedItem.mk r None None None.

Definition with_user (r : RatedItem.t) (u : User.t) : Final.t :=
  let b := RatedItem.base r in
  Final.mk (Rating.user_id b) (Rating.item_id b) (Rating.rating b)
    (Rating.timestamp b)
    (RatedItem.movie_title r) (RatedItem.release_year r) (RatedItem.genres r)
    (Some (User.age u)) (User.gender u) (User.occupation u) (User.age_group u).

Definition without_user (r : RatedItem.t) : Final.t :=
  let b := RatedItem.base r in
  Final.mk (Rating.user_id b) (Rating.item_id b) (Rating.rating b)
    (Rating.timestamp b)
    (RatedItem.movie_title r) (RatedItem.release_year r) (RatedItem.genres r)
    None None None None.

Definition integrate_data (ratings : list Rating.t) (items : list Item.t)
    (users : list User.t) : list Final.t :=
  (* Join with items data *)
  let final_data :=
    merge_left Rating.item_id Item.item_id with_item without_item
      ratings items in
  (* Join with users data *)
  merge_left (fun r => Rating.user_id (RatedItem.base r)) User.user_id
    with_user without_user final_data users.

(** ** Matrix builder *)

(** Errors that abort a run. *)
Inductive exn :=
  | FileNotFoundError (path : string)
  | UnicodeDecodeError
  | ParserError (what : string)
  | OutOfBoundsDatetime
  | ValueError
  | ZeroDivisionError
  | TypeError.

Inductive result (A : Type) :=
  | Ok (a : A)
  | Raise (e : exn).
Arguments Ok {A} a.
Arguments Raise {A} e.

Definition bind {A B} (m : result A) (k : A -> result B) : result B :=
  match m with
  | Ok a => k a
  | Raise e => Raise e
  end.

Notation "x <- m ;; k" := (bind m (fun x => k))
  (at level 61, m at next level, right associativity).
Notation "' p <- m ;; k" := (bind m (fun x => let p := x in k))
  (at level 61, p pattern, m at next level, right associativity).

Definition raises {A} (m : result A) : bool :=
  match m with Ok _ => false | Raise _ => true end.

(** A loop that stops at the first error. *)
Fixpoint map_result {A B} (f : A -> result B) (l : list A) : result (list B) :=
  match l with
  | [] => Ok []
  | a :: t => b <- f a ;; bs <- map_result f t ;; Ok (b :: bs)
  end.

(** A frame with a row index and column labels. *)
Record grid (V : Type) := mkGrid {
  index : list Z;
  columns : list Z;
  values : list (list V)
}.
Arguments mkGrid {V}.
Arguments index {V}.
Arguments columns {V}.
Arguments values {V}.

Fixpoint insert_unique (x : Z) (l : list Z) : list Z :=
  match l with
  | [] => [x]
  | y :: t =>
      if x <? y then x :: l
      else if x =? y then l
      else y :: insert_unique x t
  end.

(** The distinct values of a key column in increasing order. *)
Definition sorted_unique (l : list Z) : list Z :=
  fold_right insert_unique [] l.

(** The ratings of the rows of one (user, item) group, in row order. *)
Definition group_ratings (final_data : list Final.t) (u i : Z) : list Z :=
  map Final.rating
      (filter (fun r => (Final.user_id r =? u) && (Final.item_id r =? i))%bool
              final_data).

Definition sum_Z (l : list Z) : Z := fold_right Z.add 0 l.

(** [aggfunc='mean'], the aggregation [pivot_table] applies when none is
    given; an empty group has no value. *)
Definition mean (l : list Z) : option Q :=
  match l with
  | [] => None
  | _ => Some (inject_Z (sum_Z l) / inject_Z (Z.of_nat (List.length l)))%Q
  end.

Definition pivot_table (final_data : list Final.t) : grid (option Q) :=
  let idx := sorted_unique (map Final.user_id final_data) in
  let cols := sorted_unique (map Final.item_id final_data) in
  mkGrid idx cols
    (map (fun u => map (fun i => mean (group_ratings final_data u i)) cols) idx).

(** [.fillna(0)] *)
Definition fillna (d : Q) (g : grid (option Q)) : grid Q :=
  mkGrid (index g) (columns g)
    (map (map (fun c => match c with Some q => q | None => d end)) (values g)).

Fixpoint position (x : Z) (l : list Z) : option nat :=
  match l with
  | [] => None
  | y :: t => if x =? y then Some O else option_map S (position x t)
  end.

(** [m.loc[u, i]]: the cell at row label [u] and column label [i]. *)
Definition loc {V} (m : grid V) (u i : Z) : option V :=
  match position u (index m), position i (columns m) with
  | Some a, Some b =>
      match nth_error (values m) a with
      | Some row => nth_error row b
      | None => None
      end
  | _, _ => None
  end.

Definition triple : Type := Z * Z * Z.

(** [final_data[['user_id', 'item_id', 'rating']]] *)
Definition svd_columns (final_data : list Final.t) : list triple :=
  map (fun r => (Final.user_id r, Final.item_id r, Final.rating r)) final_data.

(** [Series.nunique()] *)
Definition nunique (col : list Z) : Z :=
  Z.of_nat (List.length (drop_duplicates_by Z.eqb (fun x => x) col)).

(** Lines 238-240: the quotient of two Python integers raises on a zero
    divisor. *)
Definition sparsity_of (actual_ratings total_possible_ratings : Z) : result Q :=
  if total_possible_ratings =? 0 then Raise ZeroDivisionError
  else Ok ((1 - inject_Z actual_ratings / inject_Z total_possible_ratings)
           * 100)%Q.

Definition data_sparsity (svd_data : list triple) : result Q :=
  let total_possible_ratings :=
    nunique (map (fun t => fst (fst t)) svd_data)
    * nunique (map (fun t => snd (fst t)) svd_data) in
  let actual_ratings := Z.of_nat (List.length svd_data) in
  sparsity_of actual_ratings total_possible_ratings.

Definition prepare_svd_data (final_data : list Final.t)
    : result (grid Q * list triple) :=
  (* 1. Create user-item matrix *)
  let user_item_matrix := fillna 0%Q (pivot_table final_data) in
  (* 2. Create SVD-ready data *)
  let svd_data := svd_columns final_data in
  (* 4. Data sparsity calculation *)
  _ <- data_sparsity svd_data ;;
  Ok (user_item_matrix, svd_data).

(** ** The ratings cleaner on a frame with nulls *)

(** A line of [u.data] with fewer than four fields is completed with
    nulls, so a column of the ratings frame the loader returns can hold
    the null, and the instants of the library are 64-bit counts of
    nanoseconds.  [Loaded.clean_ratings_data] is [clean_ratings_data] on
    such a frame: every cell is optional, a comparison with the null is
    false, two nulls are equal for [drop_duplicates], and the conversion
    of an epoch second outside the range of the instants raises. *)
Module Loaded.

Record row := mkRow {
  user_id : option Z;
  item_id : option Z;
  rating : option Z;
  timestamp : option Z
}.

Record frame := mkFrame {
  ts_kind : ts_dtype;
  rows : list row
}.

Definition cell_eqb (a b : option Z) : bool :=
  match a, b with
  | Some x, Some y => Z.eqb x y
  | None, None => true
  | _, _ => false
  end.

Definition row_eqb (a b : row) : bool :=
  (cell_eqb (user_id a) (user_id b) && cell_eqb (item_id a) (item_id b)
   && cell_eqb (rating a) (rating b)
   && cell_eqb (timestamp a) (timestamp b))%bool.

(** [ratings.drop_duplicates()] *)
Definition drop_duplicates (l : list row) : list row :=
  drop_duplicates_by row_eqb (fun r => r) l.

(** An element of a comparison of a column with a number. *)
Definition compare (test : Z -> Z -> bool) (c : option Z) (n : Z) : bool :=
  match c with
  | Some v => test v n
  | None => false
  end.

(** [(ratings['rating'] < 1) | (ratings['rating'] > 5)] *)
Definition invalid_rating (r : row) : bool :=
  (compare Z.ltb (rating r) 1 || compare Z.gtb (rating r) 5)%bool.

(** [(ratings['rating'] >= 1) & (ratings['rating'] <= 5)] *)
Definition valid_rating (r : row) : bool :=
  (compare Z.geb (rating r) 1 && compare Z.leb (rating r) 5)%bool.

(** The last instant, 2262-04-11 23:47:16.854775807, in nanoseconds
    since the epoch; the first instant is its opposite. *)
Definition instant_max : Z := 9223372036854775807.

(** [pd.to_datetime(column, unit='s')] on one element. *)
Definition to_datetime_s (k : ts_dtype) (c : option Z) : result (option Z) :=
  match k, c with
  | Datetime64, _ => Ok c
  | Int64, None => Ok None
  | Int64, Some v =>
      let ns := v * 1000000000 in
      if ((- instant_max <=? ns) && (ns <=? instant_max))%bool
      then Ok (Some ns)
      else Raise OutOfBoundsDatetime
  end.

Definition set_timestamp (r : row) (v : option Z) : row :=
  mkRow (user_id r) (item_id r) (rating r) v.

Definition convert_row (k : ts_dtype) (r : row) : result row :=
  v <- to_datetime_s k (timestamp r) ;; Ok (set_timestamp r v).

Definition clean_ratings_data (ratings : frame) : result frame :=
  (* Remove duplicates *)
  let deduped := drop_duplicates (rows ratings) in
  (* Check for invalid ratings *)
  let invalid_ratings := filter invalid_rating deduped in
  let kept :=
    if (0 <? Z.of_nat (List.length invalid_ratings))
    then filter valid_rating deduped
    else deduped in
  (* Convert timestamp to datetime *)
  converted <- map_result (convert_row (ts_kind ratings)) kept ;;
  Ok (mkFrame Datetime64 converted).

(** The counts the cleaner prints: duplicates removed, invalid ratings
    found, rows returned. *)
Definition clean_ratings_counts (ratings : frame) : result (Z * Z * Z) :=
  let deduped := drop_duplicates (rows ratings) in
  let invalid_ratings := filter invalid_rating deduped in
  out <- clean_ratings_data ratings ;;
  Ok (Z.of_nat (List.length (rows ratings)) - Z.of_nat (List.length deduped),
      Z.of_nat (List.length invalid_ratings),
      Z.of_nat (List.length (rows out))).

(** A row without nulls, cell by cell. *)
Definition of_row (r : Rating.t) : row :=
  mkRow (Some (Rating.user_id r)) (Some (Rating.item_id r))
    (Some (Rating.rating r)) (Some (Rating.timestamp r)).

End Loaded.

(** A frame without nulls as a frame with optional cells. *)
Definition loaded_frame (ratings : ratings_frame) : Loaded.frame :=
  Loaded.mkFrame (ts_kind ratings) (map Loaded.of_row (rows ratings)).

(** A row with its epoch second as an instant: the second times
    1000000000 nanoseconds. *)
Definition loaded_converted (k : ts_dtype) (r : Loaded.row) : Loaded.row :=
  Loaded.mkRow (Loaded.user_id r) (Loaded.item_id r) (Loaded.rating r)
    (match k with
     | Int64 => option_map (fun v => v * 1000000000) (Loaded.timestamp r)
     | Datetime64 => Loaded.timestamp r
     end).

(** ** Loader, persister and [main] *)

(** The entry points of the data-frame library whose code is outside the
    script.
    - [tokenize sep encoding text] is the first stage of [pd.read_csv]:
      it decodes the bytes of the file in [encoding], leaves out blank
      lines and splits the rest into records and fields under the
      reader's quoting rules; it raises on bytes that do not decode and
      on a quoted field that is still open at the end of the text.
    - [parse_datetime dayfirst column s] is the date the parser behind
      [pd.to_datetime(column, dayfirst=...)] reads in the element [s] of
      [column], an error when [s] is no date.
    - [typed_*] is the column typing of a frame that has been read, an
      error standing for the exception of the first operation of a later
      stage that meets a column of the wrong type.
    - [to_csv_*] is the text [DataFrame.to_csv] writes. *)
Class Library := {
  default_na : list string;
  tokenize : string -> string -> string -> result (list (list string));
  parse_datetime : bool -> list string -> string -> result date;
  typed_ratings : list (list cell) -> result ratings_frame;
  typed_items : list (list cell * option date) -> result (list Item.t);
  typed_users : list (list cell) -> result (list User.t);
  to_csv_final : list Final.t -> string;
  to_csv_svd : list triple -> string;
  to_csv_matrix : grid Q -> string
}.

(** A file is its text; a file system maps paths to files, the first
    entry of a path being the current one. *)
Definition file : Type := string.
Definition filesystem : Type := list (string * file).

Fixpoint fs_lookup (fs : filesystem) (path : string) : option file :=
  match fs with
  | [] => None
  | (p, f) :: rest => if String.eqb p path then Some f else fs_lookup rest path
  end.

Definition fs_write (path : string) (f : file) (fs : filesystem) : filesystem :=
  (path, f) :: fs.

(** [os.path.join(data_dir, name)] *)
Definition path_join (dir name : string) : string :=
  (dir ++ "/" ++ name)%string.

Definition na_cell (na : list string) (field : string) : cell :=
  if existsb (String.eqb field) na then None else Some field.

Definition pad_to (n : nat) (l : list cell) : list cell :=
  l ++ repeat None (n - List.length l).

(** The width the reader expects: that of the first record, or the
    number of names when that is larger. *)
Definition expected_fields (names : list string) (lines : list (list string))
    : nat :=
  match lines with
  | [] => List.length names
  | first :: _ => Nat.max (List.length first) (List.length names)
  end.

(** [pd.read_csv(path, sep=..., encoding=..., names=names,
    na_values=na_values)].  The file is opened, its text is tokenized,
    and the records are laid out under [names].  There is no check of
    the number of columns against [names]: a record with fewer fields is
    completed with nulls, leading columns in excess of the names become
    the row index, and a later record wider than the expected width
    makes the reader fail. *)
Definition read_csv {L : Library} (fs : filesystem) (path sep encoding : string)
    (names na_values : list string) : result (list (list cell)) :=
  match fs_lookup fs path with
  | None => Raise (FileNotFoundError path)
  | Some text =>
      lines <- tokenize sep encoding text ;;
      let n := List.length names in
      let expected := expected_fields names lines in
      if existsb (fun l => Nat.ltb expected (List.length l)) (tl lines)
      then Raise (ParserError path)
      else Ok (map (fun l =>
                      skipn (expected - n)
                        (pad_to expected (map (na_cell (na_values ++ default_na)) l)))
                   lines)
  end.

(** The separator ["\t"] of [u.data]. *)
Definition tab : string := String (ascii_of_N 9) EmptyString.

(** The encoding of a read that names none. *)
Definition default_encoding : string := "utf-8".

Definition ratings_names : list string :=
  ["user_id"; "item_id"; "rating"; "timestamp"]%string.

Definition items_names : list string :=
  ["item_id"; "movie_title"; "release_date"; "video_release_date"; "IMDb_URL";
   "unknown"; "Action"; "Adventure"; "Animation"; "Children's"; "Comedy";
   "Crime"; "Documentary"; "Drama"; "Fantasy"; "Film-Noir"; "Horror";
   "Musical"; "Mystery"; "Romance"; "Sci-Fi"; "Thriller"; "War";
   "Western"]%string.

Definition users_names : list string :=
  ["user_id"; "age"; "gender"; "occupation"; "zip_code"]%string.

(** [.astype(str)]: the null becomes the text "nan". *)
Definition astype_str (c : cell) : string :=
  match c with Some s => s | None => "nan"%string end.

(** Lines 48-49 on one cell of [release_date]. *)
Definition clean_release_date (c : cell) : string :=
  Str.keep_date_chars (Str.strip (astype_str c)).

(** [pd.to_datetime(column, errors="coerce", dayfirst=...)] on the
    element [s] of [column]: the error of the parser is caught and the
    element becomes the null. *)
Definition to_datetime_coerce {L : Library} (dayfirst : bool)
    (column : list string) (s : string) : option date :=
  match parse_datetime dayfirst column s with
  | Ok d => Some d
  | Raise _ => None
  end.

(** Lines 48-50 on the whole column. *)
Definition parse_release_dates {L : Library} (column : list cell)
    : list (option date) :=
  let s := map (fun c => Str.strip (astype_str c)) column in
  let s := map Str.keep_date_chars s in
  map (to_datetime_coerce true s) s.

Definition raw_frames : Type :=
  list (list cell) * list (list cell * option date) * list (list cell).

Definition load_raw_data {L : Library} (data_dir : string) (fs : filesystem)
    : result raw_frames :=
  (* Load ratings data *)
  ratings <- read_csv fs (path_join data_dir "u.data") tab default_encoding
               ratings_names [] ;;
  (* Load items data with proper encoding *)
  items <- read_csv fs (path_join data_dir "u.item") "|" "latin-1" items_names
             [EmptyString; " "; "None"]%string ;;
  (* Clean and parse release dates *)
  let release_date :=
    parse_release_dates (map (fun row => nth 2 row None) items) in
  let items := combine items release_date in
  (* Load users data *)
  users <- read_csv fs (path_join data_dir "u.user") "|" default_encoding
             users_names [] ;;
  Ok (ratings, items, users).

Definition outputs : Type := list Final.t * list triple * grid Q.

(** The three [to_csv] calls, taken to complete: the file system of the
    model has no write that fails. *)
Definition save_cleaned_data {L : Library} (data_dir : string) (out : outputs)
    (fs : filesystem) : filesystem :=
  let '(final_data, svd_data, user_item_matrix) := out in
  let fs := fs_write (path_join data_dir "final_data_cleaned.csv")
              (to_csv_final final_data) fs in
  let fs := fs_write (path_join data_dir "svd_data.csv")
              (to_csv_svd svd_data) fs in
  fs_write (path_join data_dir "user_item_matrix.csv")
    (to_csv_matrix user_item_matrix) fs.



(** ** Derived notions used by the statements *)

(** The timestamp conversion applied to one row. *)
Definition convert_row (k : ts_dtype) (r : Rating.t) : Rating.t :=
  Rating.set_timestamp r (to_datetime_s k (Rating.timestamp r)).

(** What [clean_items_data] does to one surviving row. *)
Definition clean_item_row (r : Item.t) : Item.t :=
  let title := option_map Str.strip (Item.movie_title r) in
  let r1 := Item.set_release_year (Item.set_movie_title r title)
              (match title with Some s => Str.extract_year s | None => None end) in
  Item.set_genres r1 (Some (get_genres r1)).

(** What [clean_users_data] does to one surviving row. *)
Definition clean_user_row (r : User.t) : User.t :=
  User.mk (User.user_id r) (User.age r)
    (option_map Str.upper (User.gender r))
    (option_map Str.lower (option_map Str.strip (User.occupation r)))
    (User.zip_code r)
    (Some (categorize_age (User.age r))).

(** The genres whose flag is 1, [unknown] left out, in declaration
    order. *)
Definition active_genres (f : Item.flags) : list genre :=
  filter (fun g => Item.flag f g =? 1) (tl genre_cols).

Definition no_flags : Item.flags :=
  Item.mkFlags 0 0 0 0 0 0 0 0 0 0 0 0 0 0 0 0 0 0 0.

(** The row of [final_data] a rating row gives when item and user keys
    are unique. *)
Definition integrate_row (items : list Item.t) (users : list User.t)
    (r : Rating.t) : Final.t :=
  join_one (fun x => Rating.user_id (RatedItem.base x)) User.user_id
    with_user without_user users
    (join_one Rating.item_id Item.item_id with_item without_item items r).


(** The matrix of [prepare_svd_data]: the pivot with its gaps filled. *)
Definition user_item_matrix (final_data : list Final.t) : grid Q :=
  fillna 0%Q (pivot_table final_data).

Definition cell_value (final_data : list Final.t) (u i : Z) : Q :=
  match mean (group_ratings final_data u i) with
  | Some q => q
  | None => 0%Q
  end.

(** The declared schema: file name and column names of each input. *)
Definition schema : list (string * list string) :=
  [("u.data", ratings_names); ("u.item", items_names);
   ("u.user", users_names)]%string.






(** ** A stand-in for the library *)

(** Enough of the library to run the loader and [main] on small files:
    a tokenizer for text in ASCII or Latin-1 with the quoting rules of
    the reader, dates in the day-month-year layout of [u.item]
    ("01-Jan-1995"), columns typed by reading decimal integers, and a
    plain rendering of the written frames. *)
Module Sample.
Import Str.

Definition line_feed : ascii := ascii_of_N 10.
Definition quote : ascii := ascii_of_N 34.

(** Bytes that decode: any byte in Latin-1; in UTF-8 a byte below 128,
    or a lead byte followed by its continuation bytes. *)
Fixpoint utf8_valid (pending : nat) (l : list ascii) : bool :=
  match l with
  | [] => Nat.eqb pending 0
  | c :: t =>
      match pending with
      | O =>
          if between 0 127 c then utf8_valid 0 t
          else if between 194 223 c then utf8_valid 1 t
          else if between 224 239 c then utf8_valid 2 t
          else if between 240 244 c then utf8_valid 3 t
          else false
      | S p => if between 128 191 c then utf8_valid p t else false
      end
  end.

Definition decodes (encoding : string) (l : list ascii) : bool :=
  if String.eqb encoding "utf-8" then utf8_valid 0 l else true.

(** Where the tokenizer stands: before the first character of a record,
    before the first character of a later field, inside a plain field,
    inside a quoted field, or after a quote met inside a quoted field. *)
Inductive state :=
  | StartRecord | StartField | InField | InQuoted | QuoteInQuoted.

(** Records end at a line feed and an empty line gives no record; fields
    end at the separator; a field that opens with a quote runs to its
    closing quote, across separators and line feeds, a doubled quote
    standing for one. *)
Fixpoint records (sep : ascii) (st : state) (field : list ascii)
    (record : list string) (l : list ascii) : result (list (list string)) :=
  let ended := record ++ [of_chars (rev field)] in
  match l with
  | [] =>
      match st with
      | StartRecord => Ok []
      | InQuoted => Raise (ParserError "EOF inside string")
      | _ => Ok [ended]
      end
  | c :: t =>
      match st with
      | StartRecord =>
          if Ascii.eqb c line_feed then records sep StartRecord [] [] t
          else if Ascii.eqb c sep then records sep StartField [] ended t
          else if Ascii.eqb c quote then records sep InQuoted [] record t
          else records sep InField [c] record t
      | StartField =>
          if Ascii.eqb c line_feed
          then rest <- records sep StartRecord [] [] t ;; Ok (ended :: rest)
          else if Ascii.eqb c sep then records sep StartField [] ended t
          else if Ascii.eqb c quote then records sep InQuoted [] record t
          else records sep InField [c] record t
      | InField =>
          if Ascii.eqb c line_feed
          then rest <- records sep StartRecord [] [] t ;; Ok (ended :: rest)
          else if Ascii.eqb c sep then records sep StartField [] ended t
          else records sep InField (c :: field) record t
      | InQuoted =>
          if Ascii.eqb c quote then records sep QuoteInQuoted field record t
          else records sep InQuoted (c :: field) record t
      | QuoteInQuoted =>
          if Ascii.eqb c quote then records sep InQuoted (c :: field) record t
          else if Ascii.eqb c line_feed
          then rest <- records sep StartRecord [] [] t ;; Ok (ended :: rest)
          else if Ascii.eqb c sep then records sep StartField [] ended t
          else records sep InField (c :: field) record t
      end
  end.

Definition tokenize_text (sep encoding text : string)
    : result (list (list string)) :=
  if decodes encoding (chars text)
  then match chars sep with
       | [c] => records c StartRecord [] [] (chars text)
       | _ => Raise (ParserError "separator")
       end
  else Raise UnicodeDecodeError.

Fixpoint split_on (sep : ascii) (l cur : list ascii) : list (list ascii) :=
  match l with
  | [] => [rev cur]
  | c :: t =>
      if Ascii.eqb c sep then rev cur :: split_on sep t []
      else split_on sep t (c :: cur)
  end.

Definition digits (l : list ascii) : option Z :=
  match l with
  | [] => None
  | _ =>
      if forallb isdigit l
      then Some (fold_left (fun acc c => 10 * acc + digit_val c) l 0)
      else None
  end.

Definition integer (s : string) : option Z :=
  match chars s with
  | c :: t => if N.eqb (code c) 45 then option_map Z.opp (digits t)
              else digits (c :: t)
  | [] => None
  end.

Definition months : list string :=
  ["jan"; "feb"; "mar"; "apr"; "may"; "jun";
   "jul"; "aug"; "sep"; "oct"; "nov"; "dec"]%string.

Fixpoint month_number (name : string) (l : list string) (n : Z) : option Z :=
  match l with
  | [] => None
  | m :: t => if String.eqb m name then Some n else month_number name t (n + 1)
  end.

Definition parse_date (dayfirst : bool) (s : string) : result date :=
  match split_on "-" (chars s) [] with
  | [d; m; y] =>
      match digits d, month_number (lower (of_chars m)) months 1, digits y with
      | Some d, Some m, Some y =>
          if ((1 <=? d) && (d <=? 31))%bool then Ok (mkDate y m d)
          else Raise ValueError
      | _, _, _ => Raise ValueError
      end
  | _ => Raise ValueError
  end.

Definition int_cell (c : cell) : result Z :=
  match c with
  | Some s => match integer s with Some z => Ok z | None => Raise TypeError end
  | None => Raise TypeError
  end.

Definition rating_of_cells (row : list cell) : result Rating.t :=
  match row with
  | [u; i; r; t] =>
      u <- int_cell u ;; i <- int_cell i ;; r <- int_cell r ;;
      t <- int_cell t ;; Ok (Rating.mk u i r t)
  | _ => Raise TypeError
  end.

Definition flags_of_cells (l : list Z) : result Item.flags :=
  match l with
  | [a0; a1; a2; a3; a4; a5; a6; a7; a8; a9; a10; a11; a12; a13; a14; a15;
     a16; a17; a18] =>
      Ok (Item.mkFlags a0 a1 a2 a3 a4 a5 a6 a7 a8 a9 a10 a11 a12 a13 a14 a15
            a16 a17 a18)
  | _ => Raise TypeError
  end.

Definition item_of_cells (row : list cell * option date) : result Item.t :=
  match fst row with
  | id :: title :: _ :: video :: url :: flags =>
      id <- int_cell id ;;
      flags <- map_result int_cell flags ;;
      flags <- flags_of_cells flags ;;
      Ok (Item.mk id title (snd row) video url flags None None)
  | _ => Raise TypeError
  end.

Definition user_of_cells (row : list cell) : result User.t :=
  match row with
  | [id; age; gender; occupation; zip] =>
      id <- int_cell id ;; age <- int_cell age ;;
      Ok (User.mk id age gender occupation zip None)
  | _ => Raise TypeError
  end.

Definition show_Z (z : Z) : string :=
  DecimalString.NilZero.string_of_int (Z.to_int z).

Definition show_Q (q : Q) : string :=
  (show_Z (Qnum q) ++ "/" ++ show_Z (Z.pos (Qden q)))%string.

Definition show_cell (c : cell) : string :=
  match c with Some s => s | None => EmptyString end.

Definition show_opt_Z (c : option Z) : string :=
  match c with Some z => show_Z z | None => EmptyString end.

Definition final_line (r : Final.t) : list string :=
  [show_Z (Final.user_id r); show_Z (Final.item_id r); show_Z (Final.rating r);
   show_Z (Final.timestamp r); show_cell (Final.movie_title r);
   show_opt_Z (Final.release_year r); show_cell (Final.genres r);
   show_opt_Z (Final.age r); show_cell (Final.gender r);
   show_cell (Final.occupation r); show_cell (Final.age_group r)].

Definition triple_line (t : triple) : list string :=
  [show_Z (fst (fst t)); show_Z (snd (fst t)); show_Z (snd t)].

Definition matrix_lines (m : grid Q) : list (list string) :=
  ("user_id"%string :: map show_Z (columns m))
  :: map (fun p => show_Z (fst p) :: map show_Q (snd p))
         (combine (index m) (values m)).

(** A field is written between quotes, its quotes doubled, when it holds
    a comma, a quote or a line feed. *)
Definition csv_field (s : string) : string :=
  if existsb (fun c => Ascii.eqb c "," || Ascii.eqb c quote
                       || Ascii.eqb c line_feed)%bool (chars s)
  then of_chars
         (quote :: flat_map (fun c => if Ascii.eqb c quote then [c; c] else [c])
                            (chars s)
          ++ [quote])
  else s.

(** The text of comma-separated lines, each closed by a line feed. *)
Definition csv_text (lines : list (list string)) : string :=
  String.concat EmptyString
    (map (fun l => (String.concat "," (map csv_field l)
                    ++ String line_feed EmptyString)%string) lines).

#[export] Instance library : Library := {|
  default_na := [EmptyString; "#N/A"; "#N/A N/A"; "#NA"; "-1.#IND"; "-1.#QNAN"; "-NaN";
                 "-nan"; "1.#IND"; "1.#QNAN"; "<NA>"; "N/A"; "NA"; "NULL";
                 "NaN"; "None"; "n/a"; "nan"; "null"]%string;
  tokenize := tokenize_text;
  parse_datetime := fun dayfirst _ s => parse_date dayfirst s;
  typed_ratings := fun rows =>
    rs <- map_result rating_of_cells rows ;; Ok (mkRatings Int64 rs);
  typed_items := map_result item_of_cells;
  typed_users := map_result user_of_cells;
  to_csv_final := fun l =>
    csv_text
      (["user_id"; "item_id"; "rating"; "timestamp"; "movie_title";
        "release_year"; "genres"; "age"; "gender"; "occupation";
        "age_group"]%string :: map final_line l);
  to_csv_svd := fun l =>
    csv_text (["user_id"; "item_id"; "rating"]%string :: map triple_line l);
  to_csv_matrix := fun m => csv_text (matrix_lines m)
|}.

(** The text of a file from its lines, each a list of fields. *)
Definition text_of (sep : string) (lines : list (list string)) : file :=
  String.concat EmptyString
    (map (fun l => (String.concat sep l ++ String line_feed EmptyString)%string)
         lines).

(** Two users, two films, three ratings; the second user line has no
    [zip_code] field, the first film has trailing blanks in its title,
    and an empty line follows the first rating. *)
Definition u_data : file :=
  text_of tab
    [["1"; "1"; "5"; "874965758"];
     [];
     ["1"; "2"; "3"; "876893171"];
     ["2"; "1"; "4"; "888550871"]]%string.

Definition flag_fields (action comedy : string) : list string :=
  ["0"; action; "0"; "0"; "0"; comedy; "0"; "0"; "0"; "0"; "0"; "0"; "0";
   "0"; "0"; "0"; "0"; "0"; "0"]%string.

Definition item_fields (id title released url action comedy : string)
    : list string :=
  [id; title; released; EmptyString; url] ++ flag_fields action comedy.

Definition u_item : file :=
  text_of "|"
    [item_fields "1" "Toy Story (1995)  " "01-Jan-1995"
       "http://us.imdb.com/M/title-exact?Toy%20Story%20(1995)" "0" "1";
     item_fields "2" "GoldenEye (1995)" "01-Jan-1995"
       "http://us.imdb.com/M/title-exact?GoldenEye%20(1995)" "1" "0"].

Definition u_user : file :=
  "1|24|M| Technician|85711
2|53|f|other
"%string.

Definition data_files : filesystem :=
  [("data/u.data", u_data); ("data/u.item", u_item);
   ("data/u.user", u_user)]%string.


(** A users file of two lines of five fields each, the second with the
    byte 0xE9 in the occupation: Latin-1 text that is no UTF-8. *)
Definition u_user_latin1 : file :=
  text_of "|"
    [["1"; "24"; "M"; "technician"; "85711"];
     ["2"; "53"; "F"; String (ascii_of_N 233) "crivain"; "94043"]]%string.

(** A users file of one line of five fields whose occupation opens a
    quote that is never closed. *)
Definition u_user_open_quote : file :=
  text_of "|"
    [["1"; "24"; "M"; String quote "technician"; "85711"]]%string.

Definition with_users (users : file) : filesystem :=
  [("data/u.data", u_data); ("data/u.item", u_item);
   ("data/u.user", users)]%string.



End Sample.

(** ** Small inputs *)



(** Three ratings, two cleaned films and one cleaned user: the third
    rating has neither its film nor its user in the tables. *)
Definition some_ratings : list Rating.t :=
  [Rating.mk 1 1 5 874965758; Rating.mk 1 2 3 876893171;
   Rating.mk 7 9 4 888550871].

Definition some_items : list Item.t :=
  clean_items_data
    [Item.mk 1 (Some "Toy Story (1995) "%string) None None None
       (Item.set_flag no_flags gComedy 1) None None;
     Item.mk 2 (Some "GoldenEye (1995)"%string) None None None
       (Item.set_flag no_flags gAction 1) None None;
     Item.mk 1 (Some "Toy Story again"%string) None None None
       no_flags None None].

Definition some_users : list User.t :=
  clean_users_data
    [User.mk 1 24 (Some "m"%string) (Some " Technician"%string)
       (Some "85711"%string) None].

Definition some_final : list Final.t :=
  integrate_data some_ratings some_items some_users.


(** ** Further notions *)

(** [subsequence k l]: [k] is [l] with some elements left out, the
    others in their order. *)
Inductive subsequence {A : Type} : list A -> list A -> Prop :=
  | sub_nil : subsequence [] []
  | sub_skip x k l : subsequence k l -> subsequence k (x :: l)
  | sub_keep x k l : subsequence k l -> subsequence (x :: k) (x :: l).

(** Lines 94-100: the two numbers the ratings cleaner prints, the
    duplicates removed and the invalid ratings found. *)
Definition clean_ratings_counts (ratings : ratings_frame) : Z * Z :=
  let before_ratings := Z.of_nat (List.length (rows ratings)) in
  let deduped := drop_duplicates (rows ratings) in
  let invalid_ratings := filter invalid_rating deduped in
  (before_ratings - Z.of_nat (List.length deduped),
   Z.of_nat (List.length invalid_ratings)).

(** A text without a blank at either end. *)
Definition trimmed (s : string) : Prop :=
  (forall c rest, Str.chars s = c :: rest -> Str.isspace c = false)
  /\ (forall c init, Str.chars s = init ++ [c] -> Str.isspace c = false).

(** The six labels of [categorize_age]. *)
Definition age_groups : list string :=
  ["Under 18"; "18-24"; "25-34"; "35-49"; "50-64"; "65+"]%string.

(** The (user, item, rating) columns of a rating row. *)
Definition triple_of (r : Rating.t) : triple :=
  (Rating.user_id r, Rating.item_id r, Rating.rating r).

(** The names of the three files [save_cleaned_data] writes. *)
Definition output_names : list string :=
  ["final_data_cleaned.csv"; "svd_data.csv"; "user_item_matrix.csv"]%string.

(** The columns of a row of [final_data] that the first join made. *)
Definition rated_item_part (f : Final.t) : RatedItem.t :=
  RatedItem.mk (Final.rating_part f) (Final.movie_title f)
    (Final.release_year f) (Final.genres f).

(** Raw items and users tables: the second row with [item_id] 1 is a
    repeated key. *)
Definition raw_items : list Item.t :=
  [Item.mk 1 (Some "Toy Story (1995) "%string) None None None
     (Item.set_flag no_flags gComedy 1) None None;
   Item.mk 2 (Some "GoldenEye (1995)"%string) None None None
     (Item.set_flag no_flags gAction 1) None None;
   Item.mk 1 (Some "Toy Story again"%string) None None None
     no_flags None None].

Definition raw_users : list User.t :=
  [User.mk 1 24 (Some "m"%string) (Some " Technician"%string)
     (Some "85711"%string) None].

(** ** Quality inspection *)

Section Duplicated.
Context {A K : Type} (key_eqb : K -> K -> bool) (key : A -> K).

(** [DataFrame.duplicated()]: a row is marked when a row with the same
    key came before it. *)
Fixpoint duplicated_from (seen : list K) (rows : list A) : list bool :=
  match rows with
  | [] => []
  | r :: rest =>
      if seen_key key_eqb (key r) seen then true :: duplicated_from seen rest
      else false :: duplicated_from (key r :: seen) rest
  end.

Definition duplicated_by (rows : list A) : list bool :=
  duplicated_from [] rows.
End Duplicated.

(** [.sum()] of a column of marks. *)
Definition count_true (marks : list bool) : Z :=
  Z.of_nat (List.length (filter (fun b : bool => b) marks)).

(** [Series.min()] and [Series.max()]: no value for an empty column. *)
Definition series_min (col : list Z) : option Z :=
  match col with
  | [] => None
  | x :: rest => Some (fold_left Z.min rest x)
  end.

Definition series_max (col : list Z) : option Z :=
  match col with
  | [] => None
  | x :: rest => Some (fold_left Z.max rest x)
  end.

Definition is_null {A} (c : option A) : Z :=
  match c with
  | None => 1
  | Some _ => 0
  end.

Definition option_eqb {A} (eqb : A -> A -> bool) (a b : option A) : bool :=
  match a, b with
  | Some x, Some y => eqb x y
  | None, None => true
  | _, _ => false
  end.

Definition date_eqb (a b : date) : bool :=
  (Z.eqb (d_year a) (d_year b) && Z.eqb (d_month a) (d_month b)
   && Z.eqb (d_day a) (d_day b))%bool.

Definition flags_eqb (a b : Item.flags) : bool :=
  forallb (fun g => Z.eqb (Item.flag a g) (Item.flag b g)) genre_cols.

(** Equality of whole rows of the items and of the users frame. *)
Definition item_row_eqb (a b : Item.t) : bool :=
  (Z.eqb (Item.item_id a) (Item.item_id b)
   && option_eqb String.eqb (Item.movie_title a) (Item.movie_title b)
   && option_eqb date_eqb (Item.release_date a) (Item.release_date b)
   && option_eqb String.eqb (Item.video_release_date a)
        (Item.video_release_date b)
   && option_eqb String.eqb (Item.IMDb_URL a) (Item.IMDb_URL b)
   && flags_eqb (Item.genre_flags a) (Item.genre_flags b)
   && option_eqb Z.eqb (Item.release_year a) (Item.release_year b)
   && option_eqb String.eqb (Item.genres a) (Item.genres b))%bool.

Definition user_row_eqb (a b : User.t) : bool :=
  (Z.eqb (User.user_id a) (User.user_id b)
   && Z.eqb (User.age a) (User.age b)
   && option_eqb String.eqb (User.gender a) (User.gender b)
   && option_eqb String.eqb (User.occupation a) (User.occupation b)
   && option_eqb String.eqb (User.zip_code a) (User.zip_code b)
   && option_eqb String.eqb (User.age_group a) (User.age_group b))%bool.

(** What [inspect_data_quality] prints. *)
Record quality_report := mkReport {
  ratings_shape : Z * Z;
  items_shape : Z * Z;
  users_shape : Z * Z;
  ratings_missing : Z;
  items_missing : Z;
  users_missing : Z;
  unique_users : Z;
  unique_items : Z;
  rating_min : option Z;
  rating_max : option Z;
  duplicate_ratings : Z;
  duplicate_items : Z;
  duplicate_users : Z
}.

(** The frames are inspected as loaded: the integer columns hold no
    null, and the columns the cleaners add are not there yet. *)
Definition inspect_data_quality (ratings : ratings_frame)
    (items : list Item.t) (users : list User.t) : quality_report :=
  mkReport
    (* Check sizes *)
    (Z.of_nat (List.length (rows ratings)),
     Z.of_nat (List.length ratings_names))
    (Z.of_nat (List.length items), Z.of_nat (List.length items_names))
    (Z.of_nat (List.length users), Z.of_nat (List.length users_names))
    (* Check missing values *)
    0
    (sum_Z (map (fun r => is_null (Item.movie_title r)
                          + is_null (Item.release_date r)
                          + is_null (Item.video_release_date r)
                          + is_null (Item.IMDb_URL r)) items))
    (sum_Z (map (fun r => is_null (User.gender r)
                          + is_null (User.occupation r)
                          + is_null (User.zip_code r)) users))
    (* Check unique values *)
    (nunique (map Rating.user_id (rows ratings)))
    (nunique (map Rating.item_id (rows ratings)))
    (series_min (map Rating.rating (rows ratings)))
    (series_max (map Rating.rating (rows ratings)))
    (* Check duplicates *)
    (count_true (duplicated_by Rating.eqb (fun r => r) (rows ratings)))
    (count_true (duplicated_by item_row_eqb (fun r => r) items))
    (count_true (duplicated_by user_row_eqb (fun r => r) users)).

(* ================================================================= *)
(** * Part II. Properties *)
(* ================================================================= *)

(** ** Duplicate removal *)

Section DropDuplicatesFacts.
Context {A K : Type} (key_eqb : K -> K -> bool) (key : A -> K).
Hypothesis key_eqb_eq : forall a b, key_eqb a b = true <-> a = b.

Lemma seen_key_In (k : K) (seen : list K) :
  seen_key key_eqb k seen = true <-> In k seen.
Proof.
  unfold seen_key. rewrite existsb_exists. split.
  - intros [x [Hin Heq]]. apply key_eqb_eq in Heq. now subst.
  - intros Hin. exists k. split; [assumption | now apply key_eqb_eq].
Qed.

Lemma seen_key_false (k : K) (seen : list K) :
  seen_key key_eqb k seen = false <-> ~ In k seen.
Proof.
  rewrite <- seen_key_In. destruct (seen_key key_eqb k seen); intuition congruence.
Qed.

Lemma drop_dups_from_In (seen : list K) (l : list A) (r : A) :
  In r (drop_dups_from key_eqb key seen l) -> In r l /\ ~ In (key r) seen.
Proof.
  revert seen. induction l as [|x l IH]; intros seen; simpl; [tauto|].
  destruct (seen_key key_eqb (key x) seen) eqn:E.
  - intros H. apply IH in H. tauto.
  - apply seen_key_false in E. intros [-> | H]; [tauto|].
    apply IH in H. simpl in H. tauto.
Qed.

Lemma drop_dups_from_NoDup (seen : list K) (l : list A) :
  NoDup (map key (drop_dups_from key_eqb key seen l)).
Proof.
  revert seen. induction l as [|x l IH]; intros seen; simpl; [constructor|].
  destruct (seen_key key_eqb (key x) seen) eqn:E; [apply IH|].
  simpl. constructor; [|apply IH].
  intros Hin. apply in_map_iff in Hin. destruct Hin as [y [Hk Hy]].
  apply drop_dups_from_In in Hy. simpl in Hy. intuition congruence.
Qed.

Lemma drop_dups_from_keeps_key (seen : list K) (l : list A) (r : A) :
  In r l -> ~ In (key r) seen ->
  In (key r) (map key (drop_dups_from key_eqb key seen l)).
Proof.
  revert seen. induction l as [|x l IH]; intros seen; simpl; [tauto|].
  intros [-> | Hin] Hns.
  - apply seen_key_false in Hns. rewrite Hns. now left.
  - destruct (seen_key key_eqb (key x) seen) eqn:E; [now apply IH|].
    simpl. destruct (key_eqb (key x) (key r)) eqn:Ek.
    + apply key_eqb_eq in Ek. now left.
    + right. apply IH; [assumption|].
      intros [Heq | Hs]; [|tauto].
      apply key_eqb_eq in Heq. congruence.
Qed.

Lemma drop_dups_from_fixed (seen : list K) (l : list A) :
  NoDup (map key l) -> (forall r, In r l -> ~ In (key r) seen) ->
  drop_dups_from key_eqb key seen l = l.
Proof.
  revert seen. induction l as [|x l IH]; intros seen Hnd Hs; simpl; [reflexivity|].
  inversion Hnd as [|? ? Hx Hnd']; subst.
  assert (E : seen_key key_eqb (key x) seen = false)
    by (apply seen_key_false, Hs; now left).
  rewrite E. f_equal. apply IH; [assumption|].
  intros r Hr [Heq | Hin].
  - apply Hx. rewrite Heq. now apply in_map.
  - apply (Hs r); [now right | assumption].
Qed.

Lemma drop_duplicates_by_NoDup (l : list A) :
  NoDup (map key (drop_duplicates_by key_eqb key l)).
Proof. apply drop_dups_from_NoDup. Qed.

Lemma drop_duplicates_by_In (l : list A) (r : A) :
  In r (drop_duplicates_by key_eqb key l) -> In r l.
Proof. intros H. now apply drop_dups_from_In in H. Qed.

Lemma drop_duplicates_by_keeps_key (l : list A) (r : A) :
  In r l -> In (key r) (map key (drop_duplicates_by key_eqb key l)).
Proof. intros H. apply drop_dups_from_keeps_key; auto. Qed.

Lemma drop_duplicates_by_fixed (l : list A) :
  NoDup (map key l) -> drop_duplicates_by key_eqb key l = l.
Proof. intros H. apply drop_dups_from_fixed; auto. Qed.

Lemma drop_duplicates_by_idempotent (l : list A) :
  drop_duplicates_by key_eqb key (drop_duplicates_by key_eqb key l)
  = drop_duplicates_by key_eqb key l.
Proof. apply drop_duplicates_by_fixed, drop_duplicates_by_NoDup. Qed.

End DropDuplicatesFacts.

(** ** Ratings cleaner *)

Lemma rating_eqb_eq (a b : Rating.t) : Rating.eqb a b = true <-> a = b.
Proof.
  destruct a, b. unfold Rating.eqb. simpl.
  rewrite !andb_true_iff, !Z.eqb_eq. split.
  - intros [[[-> ->] ->] ->]. reflexivity.
  - intros H. injection H as -> -> -> ->. auto.
Qed.

Lemma invalid_rating_negb (r : Rating.t) :
  invalid_rating r = negb (valid_rating r).
Proof. unfold invalid_rating, valid_rating. lia. Qed.

Lemma valid_rating_range (r : Rating.t) :
  valid_rating r = true <-> 1 <= Rating.rating r <= 5.
Proof. unfold valid_rating. lia. Qed.

(** The range filter changes nothing when no row is out of range, so the
    test on [len(invalid_ratings)] only saves a pass. *)
Lemma filter_valid_guard (l : list Rating.t) :
  (if 0 <? Z.of_nat (List.length (filter invalid_rating l))
   then filter valid_rating l else l) = filter valid_rating l.
Proof.
  destruct (0 <? _) eqn:E; [reflexivity|].
  apply Z.ltb_ge in E.
  assert (H0 : filter invalid_rating l = []).
  { destruct (filter invalid_rating l); [reflexivity | simpl in E; lia]. }
  clear E. induction l as [|x l IH]; [reflexivity|].
  simpl in *. rewrite invalid_rating_negb in H0.
  destruct (valid_rating x); simpl in H0; [|discriminate].
  f_equal. apply IH, H0.
Qed.

Lemma convert_row_inj (k : ts_dtype) (a b : Rating.t) :
  convert_row k a = convert_row k b -> a = b.
Proof.
  destruct a, b. unfold convert_row, Rating.set_timestamp. simpl.
  intros H. injection H as -> -> -> H. f_equal.
  destruct k; simpl in H; lia.
Qed.

Lemma convert_row_rating (k : ts_dtype) (r : Rating.t) :
  Rating.rating (convert_row k r) = Rating.rating r
  /\ Rating.user_id (convert_row k r) = Rating.user_id r
  /\ Rating.item_id (convert_row k r) = Rating.item_id r.
Proof. now destruct r. Qed.

Lemma NoDup_map_injective {A B} (f : A -> B) (l : list A) :
  (forall a b, f a = f b -> a = b) -> NoDup l -> NoDup (map f l).
Proof.
  intros Hinj. induction 1 as [|x l Hx Hnd IH]; simpl; constructor; auto.
  intros Hin. apply in_map_iff in Hin. destruct Hin as [y [Hy Hin]].
  apply Hinj in Hy. now subst.
Qed.

Lemma drop_duplicates_NoDup (l : list Rating.t) : NoDup (drop_duplicates l).
Proof.
  unfold drop_duplicates.
  pose proof (drop_duplicates_by_NoDup Rating.eqb (fun r => r) rating_eqb_eq l) as H.
  now rewrite map_id in H.
Qed.


Lemma clean_ratings_rows (ratings : ratings_frame) :
  rows (clean_ratings_data ratings)
  = map (convert_row (ts_kind ratings))
        (filter valid_rating (drop_duplicates (rows ratings))).
Proof.
  unfold clean_ratings_data. cbn [rows]. now rewrite filter_valid_guard.
Qed.

Lemma clean_ratings_range (ratings : ratings_frame) :
  Forall (fun r => 1 <= Rating.rating r <= 5) (rows (clean_ratings_data ratings)).
Proof.
  rewrite clean_ratings_rows. apply Forall_forall. intros r' Hin.
  apply in_map_iff in Hin. destruct Hin as [r [<- Hin]].
  apply filter_In in Hin. destruct Hin as [_ Hv].
  destruct (convert_row_rating (ts_kind ratings) r) as [-> _].
  now apply valid_rating_range.
Qed.

Lemma clean_ratings_NoDup (ratings : ratings_frame) :
  NoDup (rows (clean_ratings_data ratings)).
Proof.
  rewrite clean_ratings_rows.
  apply NoDup_map_injective; [apply convert_row_inj|].
  apply NoDup_filter, drop_duplicates_NoDup.
Qed.

Lemma clean_ratings_kind (ratings : ratings_frame) :
  ts_kind (clean_ratings_data ratings) = Datetime64.
Proof. reflexivity. Qed.

(** ** Ratings cleaner on a frame with nulls *)

Lemma loaded_cell_eqb_eq (a b : option Z) :
  Loaded.cell_eqb a b = true <-> a = b.
Proof.
  destruct a as [x|], b as [y|]; simpl.
  - rewrite Z.eqb_eq. split; [now intros -> | now intros [= ->]].
  - split; discriminate.
  - split; discriminate.
  - split; reflexivity.
Qed.

Lemma loaded_row_eqb_eq (a b : Loaded.row) :
  Loaded.row_eqb a b = true <-> a = b.
Proof.
  destruct a, b. unfold Loaded.row_eqb. simpl.
  rewrite !andb_true_iff, !loaded_cell_eqb_eq. split.
  - intros [[[-> ->] ->] ->]. reflexivity.
  - intros H. injection H as -> -> -> ->. auto.
Qed.


Lemma loaded_drop_duplicates_In (l : list Loaded.row) (r : Loaded.row) :
  In r (Loaded.drop_duplicates l) <-> In r l.
Proof.
  unfold Loaded.drop_duplicates. split.
  - apply drop_duplicates_by_In, loaded_row_eqb_eq.
  - intros H.
    pose proof (drop_duplicates_by_keeps_key Loaded.row_eqb (fun r => r)
                  loaded_row_eqb_eq l r H) as H'.
    now rewrite map_id in H'.
Qed.


Lemma loaded_invalid_negb (r : Loaded.row) :
  Loaded.rating r <> None ->
  Loaded.invalid_rating r = negb (Loaded.valid_rating r).
Proof.
  unfold Loaded.invalid_rating, Loaded.valid_rating, Loaded.compare.
  destruct (Loaded.rating r) as [v|]; [lia | congruence].
Qed.

(** Without a null rating the range filter changes nothing when no row
    is counted invalid, so the test on [len(invalid_ratings)] only saves
    a pass. *)
Lemma loaded_filter_guard (l : list Loaded.row) :
  Forall (fun r => Loaded.rating r <> None) l ->
  (if 0 <? Z.of_nat (List.length (filter Loaded.invalid_rating l))
   then filter Loaded.valid_rating l else l) = filter Loaded.valid_rating l.
Proof.
  intros Hnn. destruct (0 <? _) eqn:E; [reflexivity|].
  apply Z.ltb_ge in E.
  assert (H0 : filter Loaded.invalid_rating l = []).
  { destruct (filter Loaded.invalid_rating l); [reflexivity | simpl in E; lia]. }
  clear E. induction Hnn as [|x l Hx Hl IH]; [reflexivity|].
  simpl in *. rewrite (loaded_invalid_negb x Hx) in H0.
  destruct (Loaded.valid_rating x); simpl in H0; [|discriminate].
  f_equal. apply IH, H0.
Qed.

Lemma map_result_length {A B} (f : A -> result B) (l : list A) (k : list B) :
  map_result f l = Ok k -> List.length k = List.length l.
Proof.
  revert k. induction l as [|a l IH]; intros k; simpl.
  - now intros [= <-].
  - destruct (f a) as [b|e]; [|discriminate]. cbn [bind].
    destruct (map_result f l) as [bs|e]; [|discriminate]. cbn [bind].
    intros [= <-]. simpl. f_equal. now apply IH.
Qed.

Lemma map_result_pure {A B} (f : A -> result B) (g : A -> B) (l : list A) :
  Forall (fun a => f a = Ok (g a)) l -> map_result f l = Ok (map g l).
Proof.
  induction 1 as [|a l Ha Hl IH]; [reflexivity|].
  simpl. now rewrite Ha, IH.
Qed.

Lemma loaded_convert_in_range (k : ts_dtype) (r : Loaded.row) :
  (k = Int64 -> forall v, Loaded.timestamp r = Some v ->
                          -9223372036 <= v <= 9223372036) ->
  Loaded.convert_row k r = Ok (loaded_converted k r).
Proof.
  intros H. unfold Loaded.convert_row, Loaded.to_datetime_s, loaded_converted.
  destruct k; [|reflexivity].
  destruct (Loaded.timestamp r) as [v|]; [|reflexivity].
  specialize (H eq_refl v eq_refl). cbn [option_map].
  assert (E : ((- Loaded.instant_max <=? v * 1000000000)
               && (v * 1000000000 <=? Loaded.instant_max))%bool = true).
  { unfold Loaded.instant_max. apply andb_true_iff.
    split; apply Z.leb_le; lia. }
  cbv zeta. rewrite E. reflexivity.
Qed.


Lemma loaded_clean_rows (ratings : Loaded.frame) :
  Forall (fun r => Loaded.rating r <> None) (Loaded.rows ratings) ->
  (Loaded.ts_kind ratings = Int64 ->
   Forall (fun r => forall v, Loaded.timestamp r = Some v ->
                              -9223372036 <= v <= 9223372036)
          (Loaded.rows ratings)) ->
  Loaded.clean_ratings_data ratings
  = Ok (Loaded.mkFrame Datetime64
          (map (loaded_converted (Loaded.ts_kind ratings))
               (filter Loaded.valid_rating
                  (Loaded.drop_duplicates (Loaded.rows ratings))))).
Proof.
  intros Hnn Hts. unfold Loaded.clean_ratings_data.
  rewrite loaded_filter_guard.
  - rewrite (map_result_pure _ (loaded_converted (Loaded.ts_kind ratings)));
      [reflexivity|].
    apply Forall_forall. intros r Hr. apply loaded_convert_in_range.
    intros Hk. specialize (Hts Hk). rewrite Forall_forall in Hts.
    apply Hts. apply filter_In in Hr.
    now apply loaded_drop_duplicates_In.
  - apply Forall_forall. intros r Hr.
    rewrite Forall_forall in Hnn. apply Hnn.
    now apply loaded_drop_duplicates_In.
Qed.


(** A null rating is neither below 1 nor above 5, so it is not counted
    as invalid: alone it is returned, and beside a rating that is
    counted it is dropped by the filter without being counted. *)
Lemma clean_ratings_data_null_rating :
  Loaded.clean_ratings_data
    (Loaded.mkFrame Int64 [Loaded.mkRow (Some 1) (Some 1) None (Some 10)])
  = Ok (Loaded.mkFrame Datetime64
          [Loaded.mkRow (Some 1) (Some 1) None (Some 10000000000)])
  /\ Loaded.clean_ratings_counts
       (Loaded.mkFrame Int64
          [Loaded.mkRow (Some 1) (Some 1) None (Some 10);
           Loaded.mkRow (Some 1) (Some 2) (Some 6) (Some 20)])
     = Ok (0, 1, 0).
Proof. split; reflexivity. Qed.



Lemma drop_dups_from_map {A B} (eqa : A -> A -> bool) (eqb : B -> B -> bool)
    (f : A -> B) (seen l : list A) :
  (forall a b, eqb (f a) (f b) = eqa a b) ->
  drop_dups_from eqb (fun r => r) (map f seen) (map f l)
  = map f (drop_dups_from eqa (fun r => r) seen l).
Proof.
  intros H. revert seen. induction l as [|x l IH]; intros seen; [reflexivity|].
  cbn [map drop_dups_from].
  assert (E : seen_key eqb (f x) (map f seen) = seen_key eqa x seen).
  { unfold seen_key. induction seen as [|y seen IHs]; [reflexivity|].
    simpl. now rewrite H, IHs. }
  rewrite E. destruct (seen_key eqa x seen); [apply IH|].
  cbn [map]. f_equal. apply (IH (x :: seen)).
Qed.

Lemma loaded_of_row_eqb (a b : Rating.t) :
  Loaded.row_eqb (Loaded.of_row a) (Loaded.of_row b) = Rating.eqb a b.
Proof. reflexivity. Qed.

Lemma loaded_of_row_valid (r : Rating.t) :
  Loaded.valid_rating (Loaded.of_row r) = valid_rating r.
Proof. reflexivity. Qed.

Lemma filter_map_commute {A B} (f : A -> B) (p : B -> bool) (q : A -> bool)
    (l : list A) :
  (forall a, p (f a) = q a) -> filter p (map f l) = map f (filter q l).
Proof.
  intros H. induction l as [|x l IH]; simpl; [reflexivity|].
  rewrite H. destruct (q x); simpl; now rewrite IH.
Qed.

(** On a frame without nulls whose epoch seconds are in range, the
    cleaner on frames with nulls returns what [clean_ratings_data]
    returns. *)
Lemma clean_ratings_data_agree (ratings : ratings_frame) :
  (ts_kind ratings = Int64 ->
   Forall (fun r => -9223372036 <= Rating.timestamp r <= 9223372036)
          (rows ratings)) ->
  Loaded.clean_ratings_data (loaded_frame ratings)
  = Ok (loaded_frame (clean_ratings_data ratings)).
Proof.
  intros Hts. rewrite loaded_clean_rows.
  - unfold loaded_frame. rewrite clean_ratings_rows.
    cbn [Loaded.rows Loaded.ts_kind]. f_equal. f_equal.
    unfold Loaded.drop_duplicates, drop_duplicates, drop_duplicates_by.
    rewrite (drop_dups_from_map Rating.eqb Loaded.row_eqb Loaded.of_row [])
      by apply loaded_of_row_eqb.
    rewrite (filter_map_commute Loaded.of_row _ valid_rating)
      by apply loaded_of_row_valid.
    rewrite !map_map. apply map_ext. intros r.
    destruct (ts_kind ratings); reflexivity.
  - unfold loaded_frame. cbn [Loaded.rows]. apply Forall_forall. intros r Hr.
    apply in_map_iff in Hr. destruct Hr as [x [<- _]]. discriminate.
  - unfold loaded_frame. cbn [Loaded.rows Loaded.ts_kind]. intros Hk.
    specialize (Hts Hk). rewrite Forall_forall in Hts.
    apply Forall_forall. intros r Hr.
    apply in_map_iff in Hr. destruct Hr as [x [<- Hx]].
    cbn [Loaded.of_row Loaded.timestamp]. intros v [= <-]. now apply Hts.
Qed.

(** ** Text helpers *)

Module StrFacts.
Import Str.

Lemma chars_of_chars (l : list ascii) : chars (of_chars l) = l.
Proof. apply list_ascii_of_string_of_list_ascii. Qed.

Lemma dropWhile_head {A} (p : A -> bool) (l : list A) :
  dropWhile p l = [] \/ exists x t, dropWhile p l = x :: t /\ p x = false.
Proof.
  induction l as [|x l IH]; simpl; [now left|].
  destruct (p x) eqn:E; [assumption|]. right. now exists x, l.
Qed.

Lemma dropWhile_idem {A} (p : A -> bool) (l : list A) :
  dropWhile p (dropWhile p l) = dropWhile p l.
Proof.
  destruct (dropWhile_head p l) as [-> | [x [t [-> Hx]]]]; simpl;
    [reflexivity | now rewrite Hx].
Qed.

Lemma dropWhile_snoc {A} (p : A -> bool) (l : list A) (x : A) :
  p x = false -> dropWhile p (l ++ [x]) = dropWhile p l ++ [x].
Proof.
  intros Hx. induction l as [|y l IH]; simpl; [now rewrite Hx|].
  destruct (p y); [assumption | reflexivity].
Qed.

Lemma dropWhile_map {A} (p : A -> bool) (f : A -> A) (l : list A) :
  (forall a, p (f a) = p a) ->
  dropWhile p (map f l) = map f (dropWhile p l).
Proof.
  intros Hf. induction l as [|y l IH]; simpl; [reflexivity|].
  rewrite Hf. destruct (p y); [assumption | reflexivity].
Qed.

Lemma rstrip_idem (l : list ascii) : rstrip (rstrip l) = rstrip l.
Proof. unfold rstrip. now rewrite rev_involutive, dropWhile_idem. Qed.

(** Removing trailing blanks does not bring a blank to the front. *)
Lemma lstrip_rstrip_lstrip (l : list ascii) :
  lstrip (rstrip (lstrip l)) = rstrip (lstrip l).
Proof.
  unfold lstrip.
  destruct (dropWhile_head isspace l) as [E | [x [t [E Hx]]]]; rewrite E;
    [reflexivity|].
  unfold rstrip. simpl rev.
  rewrite (dropWhile_snoc _ _ _ Hx), rev_app_distr. simpl.
  now rewrite Hx.
Qed.

Lemma strip_idempotent (s : string) : strip (strip s) = strip s.
Proof.
  unfold strip. rewrite chars_of_chars.
  now rewrite lstrip_rstrip_lstrip, rstrip_idem.
Qed.

Lemma isspace_lower_char (c : ascii) : isspace (lower_char c) = isspace c.
Proof. destruct c as [[] [] [] [] [] [] [] []]; reflexivity. Qed.

Lemma lower_char_idem (c : ascii) : lower_char (lower_char c) = lower_char c.
Proof. destruct c as [[] [] [] [] [] [] [] []]; reflexivity. Qed.

Lemma upper_char_idem (c : ascii) : upper_char (upper_char c) = upper_char c.
Proof. destruct c as [[] [] [] [] [] [] [] []]; reflexivity. Qed.

Lemma lower_idempotent (s : string) : lower (lower s) = lower s.
Proof.
  unfold lower. rewrite chars_of_chars, map_map. f_equal.
  apply map_ext, lower_char_idem.
Qed.

Lemma upper_idempotent (s : string) : upper (upper s) = upper s.
Proof.
  unfold upper. rewrite chars_of_chars, map_map. f_equal.
  apply map_ext, upper_char_idem.
Qed.

(** Lowering the case neither creates nor removes a blank, so it
    commutes with [strip]. *)
Lemma strip_lower (s : string) : strip (lower s) = lower (strip s).
Proof.
  unfold strip, lower, lstrip, rstrip. rewrite !chars_of_chars. f_equal.
  rewrite (dropWhile_map _ _ _ isspace_lower_char).
  rewrite <- map_rev, (dropWhile_map _ _ _ isspace_lower_char).
  now rewrite map_rev.
Qed.

Lemma lower_strip_idempotent (s : string) :
  lower (strip (lower (strip s))) = lower (strip s).
Proof. now rewrite strip_lower, strip_idempotent, lower_idempotent. Qed.

End StrFacts.

(** ** Items and users cleaners, row by row *)

Lemma set_flag_same (f : Item.flags) (g : genre) :
  Item.set_flag f g (astype_int (Item.flag f g)) = f.
Proof. destruct f, g; reflexivity. Qed.

Lemma astype_row_same (r : Item.t) (g : genre) :
  Item.set_genre_flags r
    (Item.set_flag (Item.genre_flags r) g
       (astype_int (Item.flag (Item.genre_flags r) g))) = r.
Proof. rewrite set_flag_same. now destruct r. Qed.

Lemma fold_left_map_same {A C} (step : C -> A -> A) (cols : list C) (l : list A) :
  (forall c a, step c a = a) ->
  fold_left (fun fr c => map (step c) fr) cols l = l.
Proof.
  intros Hs. induction cols as [|c cols IH]; simpl; [reflexivity|].
  rewrite (map_ext _ (fun a => a)) by apply Hs. now rewrite map_id.
Qed.

Lemma clean_items_data_rows (items : list Item.t) :
  clean_items_data items
  = map clean_item_row (drop_duplicates_by Z.eqb Item.item_id items).
Proof.
  unfold clean_items_data.
  rewrite (fold_left_map_same
             (fun col r => Item.set_genre_flags r
                (Item.set_flag (Item.genre_flags r) col
                   (astype_int (Item.flag (Item.genre_flags r) col)))))
    by (intros c a; apply astype_row_same).
  rewrite !map_map. apply map_ext. intros r. reflexivity.
Qed.

Lemma clean_users_data_rows (users : list User.t) :
  clean_users_data users
  = map clean_user_row (drop_duplicates_by Z.eqb User.user_id users).
Proof.
  unfold clean_users_data. rewrite !map_map. apply map_ext.
  intros r. reflexivity.
Qed.

Lemma clean_item_row_id (r : Item.t) :
  Item.item_id (clean_item_row r) = Item.item_id r.
Proof. reflexivity. Qed.

Lemma clean_user_row_id (r : User.t) :
  User.user_id (clean_user_row r) = User.user_id r.
Proof. reflexivity. Qed.

Lemma clean_item_row_idempotent (r : Item.t) :
  clean_item_row (clean_item_row r) = clean_item_row r.
Proof.
  destruct r as [id title rd vrd url fl yr gs].
  unfold clean_item_row. cbn.
  destruct title as [s|]; cbn; [|reflexivity].
  now rewrite StrFacts.strip_idempotent.
Qed.

Lemma clean_user_row_idempotent (r : User.t) :
  clean_user_row (clean_user_row r) = clean_user_row r.
Proof.
  destruct r as [id a g o z ag]. unfold clean_user_row. cbn. f_equal.
  - destruct g as [s|]; cbn; [|reflexivity].
    now rewrite StrFacts.upper_idempotent.
  - destruct o as [s|]; cbn; [|reflexivity].
    now rewrite StrFacts.lower_strip_idempotent.
Qed.

Lemma clean_items_keys (items : list Item.t) :
  NoDup (map Item.item_id (clean_items_data items)).
Proof.
  rewrite clean_items_data_rows, map_map.
  rewrite (map_ext _ Item.item_id) by apply clean_item_row_id.
  apply drop_duplicates_by_NoDup, Z.eqb_eq.
Qed.

Lemma clean_users_keys (users : list User.t) :
  NoDup (map User.user_id (clean_users_data users)).
Proof.
  rewrite clean_users_data_rows, map_map.
  rewrite (map_ext _ User.user_id) by apply clean_user_row_id.
  apply drop_duplicates_by_NoDup, Z.eqb_eq.
Qed.

Lemma clean_ratings_idempotent (ratings : ratings_frame) :
  clean_ratings_data (clean_ratings_data ratings) = clean_ratings_data ratings.
Proof.
  pose proof (clean_ratings_range ratings) as Hrange.
  pose proof (clean_ratings_NoDup ratings) as Hnd.
  pose proof (clean_ratings_kind ratings) as Hk.
  remember (clean_ratings_data ratings) as out eqn:Eo.
  destruct out as [k l]. cbn [rows ts_kind] in *. subst k.
  unfold clean_ratings_data. cbn [rows ts_kind].
  rewrite filter_valid_guard. f_equal.
  unfold drop_duplicates.
  rewrite (drop_duplicates_by_fixed Rating.eqb (fun r => r) rating_eqb_eq)
    by now rewrite map_id.
  clear Hnd Eo. induction l as [|x l IH]; [reflexivity|].
  inversion Hrange as [|? ? Hx Hl]; subst. simpl.
  apply valid_rating_range in Hx. rewrite Hx. simpl.
  f_equal; [now destruct x | now apply IH].
Qed.

Lemma clean_items_idempotent (items : list Item.t) :
  clean_items_data (clean_items_data items) = clean_items_data items.
Proof.
  rewrite (clean_items_data_rows (clean_items_data items)).
  rewrite (drop_duplicates_by_fixed Z.eqb Item.item_id Z.eqb_eq)
    by apply clean_items_keys.
  rewrite clean_items_data_rows, map_map.
  apply map_ext, clean_item_row_idempotent.
Qed.

Lemma clean_users_idempotent (users : list User.t) :
  clean_users_data (clean_users_data users) = clean_users_data users.
Proof.
  rewrite (clean_users_data_rows (clean_users_data users)).
  rewrite (drop_duplicates_by_fixed Z.eqb User.user_id Z.eqb_eq)
    by apply clean_users_keys.
  rewrite clean_users_data_rows, map_map.
  apply map_ext, clean_user_row_idempotent.
Qed.

(** C7. Each per-table cleaner is idempotent: cleaning the result of a
    cleaning gives that result again, for the ratings, the items and the
    users cleaner and every input table. *)
Theorem cleaners_idempotent :
  (forall ratings : ratings_frame,
     clean_ratings_data (clean_ratings_data ratings) = clean_ratings_data ratings)
  /\ (forall items : list Item.t,
        clean_items_data (clean_items_data items) = clean_items_data items)
  /\ (forall users : list User.t,
        clean_users_data (clean_users_data users) = clean_users_data users).
Proof.
  split; [|split].
  - apply clean_ratings_idempotent.
  - apply clean_items_idempotent.
  - apply clean_users_idempotent.
Qed.

(** ** Age groups *)

(** C4. The age groups are the left-closed, right-open buckets below 18,
    18 to 25, 25 to 35, 35 to 50, 50 to 65, and 65 upwards: an age gets
    a label exactly when it lies in that label's bucket; 17 is
    "Under 18", 18 and 24 are "18-24", 25 is "25-34", 49 is "35-49", 50
    is "50-64" and 65 is "65+". *)
Theorem categorize_age_buckets (age : Z) :
  (categorize_age age = "Under 18"%string <-> age < 18)
  /\ (categorize_age age = "18-24"%string <-> 18 <= age < 25)
  /\ (categorize_age age = "25-34"%string <-> 25 <= age < 35)
  /\ (categorize_age age = "35-49"%string <-> 35 <= age < 50)
  /\ (categorize_age age = "50-64"%string <-> 50 <= age < 65)
  /\ (categorize_age age = "65+"%string <-> 65 <= age)
  /\ categorize_age 17 = "Under 18"%string
  /\ categorize_age 18 = "18-24"%string
  /\ categorize_age 24 = "18-24"%string
  /\ categorize_age 25 = "25-34"%string
  /\ categorize_age 49 = "35-49"%string
  /\ categorize_age 50 = "50-64"%string
  /\ categorize_age 65 = "65+"%string.
Proof.
  unfold categorize_age.
  destruct (Z.ltb_spec age 18); [|destruct (Z.ltb_spec age 25);
    [|destruct (Z.ltb_spec age 35); [|destruct (Z.ltb_spec age 50);
      [|destruct (Z.ltb_spec age 65)]]]];
  repeat split; intros; try reflexivity; try lia; try discriminate.
Qed.

(** ** Genre strings *)

Lemma append_loop_filter {A B} (p : A -> bool) (f : A -> B) (l : list A)
    (acc : list B) :
  fold_left (fun acc a => if p a then acc ++ [f a] else acc) l acc
  = acc ++ map f (filter p l).
Proof.
  revert acc. induction l as [|a l IH]; intros acc; simpl.
  - now rewrite app_nil_r.
  - rewrite IH. destruct (p a); simpl; [|reflexivity].
    now rewrite <- app_assoc.
Qed.

Lemma get_genres_active (row : Item.t) :
  get_genres row
  = match active_genres (Item.genre_flags row) with
    | [] => "Unknown"%string
    | gs => Str.join ", " (map genre_name gs)
    end.
Proof.
  unfold get_genres, active_genres.
  rewrite (append_loop_filter
             (fun g => Item.flag (Item.genre_flags row) g =? 1) genre_name).
  rewrite app_nil_l.
  generalize (filter (fun g => Item.flag (Item.genre_flags row) g =? 1)
                (tl genre_cols)).
  intros [|g gs]; reflexivity.
Qed.


(** ** Integration *)

Section MergeFacts.
Context {L R O : Type}.
Variables (left_key : L -> Z) (right_key : R -> Z).
Variables (matched : L -> R -> O) (unmatched : L -> O).

Lemma filter_none (k : Z) (right : list R) :
  ~ In k (map right_key right) ->
  filter (fun r => right_key r =? k) right = [].
Proof.
  induction right as [|x right IH]; simpl; [reflexivity|].
  intros Hn. destruct (Z.eqb_spec (right_key x) k) as [E|E]; [tauto|].
  apply IH. tauto.
Qed.

Lemma matches_unique (l : L) (right : list R) :
  NoDup (map right_key right) ->
  matches left_key right_key l right
  = match find (fun r => right_key r =? left_key l) right with
    | Some r => [r]
    | None => []
    end.
Proof.
  unfold matches. induction right as [|x right IH]; simpl; [reflexivity|].
  intros Hnd. inversion Hnd as [|? ? Hx Hnd']; subst.
  destruct (Z.eqb_spec (right_key x) (left_key l)) as [E|E].
  - f_equal. apply filter_none. now rewrite <- E.
  - now apply IH.
Qed.

Lemma merge_left_unique (left : list L) (right : list R) :
  NoDup (map right_key right) ->
  merge_left left_key right_key matched unmatched left right
  = map (join_one left_key right_key matched unmatched right) left.
Proof.
  intros Hnd. unfold merge_left.
  induction left as [|l left IH]; cbn [flat_map]; [reflexivity|].
  rewrite IH, (matches_unique l right Hnd). cbn [map]. f_equal.
  unfold join_one. destruct (find _ right); reflexivity.
Qed.

Lemma find_key_none (k : Z) (right : list R) :
  ~ In k (map right_key right) ->
  find (fun r => right_key r =? k) right = None.
Proof.
  induction right as [|x right IH]; simpl; [reflexivity|].
  intros Hn. destruct (Z.eqb_spec (right_key x) k) as [E|E]; [tauto|].
  apply IH. tauto.
Qed.

Lemma find_key_some (k : Z) (right : list R) (r : R) :
  NoDup (map right_key right) -> In r right -> right_key r = k ->
  find (fun r => right_key r =? k) right = Some r.
Proof.
  induction right as [|x right IH]; simpl; [tauto|].
  intros Hnd Hin Hk. inversion Hnd as [|? ? Hx Hnd']; subst.
  destruct Hin as [-> | Hin].
  - now rewrite Z.eqb_refl.
  - destruct (Z.eqb_spec (right_key x) (right_key r)) as [E|E].
    + exfalso. apply Hx. rewrite E. now apply in_map.
    + now apply IH.
Qed.

End MergeFacts.

Lemma integrate_data_rows (ratings : list Rating.t) (items : list Item.t)
    (users : list User.t) :
  NoDup (map Item.item_id items) -> NoDup (map User.user_id users) ->
  integrate_data ratings items users = map (integrate_row items users) ratings.
Proof.
  intros Hi Hu. unfold integrate_data.
  rewrite (merge_left_unique _ _ _ _ _ _ Hi), (merge_left_unique _ _ _ _ _ _ Hu).
  now rewrite map_map.
Qed.

Lemma integrate_row_rating_part items users (r : Rating.t) :
  Final.rating_part (integrate_row items users r) = r.
Proof.
  unfold integrate_row, join_one.
  destruct (find _ items); cbn [with_item without_item RatedItem.base];
    destruct (find _ users); destruct r; reflexivity.
Qed.

Lemma integrate_row_item_columns items users (r : Rating.t) :
  let row := integrate_row items users r in
  (Final.movie_title row, Final.release_year row, Final.genres row)
  = match find (fun i => Item.item_id i =? Rating.item_id r) items with
    | Some i => (Item.movie_title i, Item.release_year i, Item.genres i)
    | None => (None, None, None)
    end.
Proof.
  unfold integrate_row, join_one.
  destruct (find _ items); cbn [with_item without_item RatedItem.base];
    destruct (find _ users); reflexivity.
Qed.

Lemma integrate_row_user_columns items users (r : Rating.t) :
  let row := integrate_row items users r in
  (Final.age row, Final.gender row, Final.occupation row, Final.age_group row)
  = match find (fun u => User.user_id u =? Rating.user_id r) users with
    | Some u => (Some (User.age u), User.gender u, User.occupation u,
                 User.age_group u)
    | None => (None, None, None, None)
    end.
Proof.
  unfold integrate_row, join_one.
  destruct (find _ items); cbn [with_item without_item RatedItem.base];
    destruct (find _ users); reflexivity.
Qed.

(** C2. With items unique by [item_id] and users unique by [user_id],
    the two left joins give exactly one row per rating row, in the same
    order and with the rating columns unchanged, so the row count is
    that of the ratings; a row whose [item_id] matches no item has nulls
    in the three item columns and a row whose [user_id] matches no user
    has nulls in the four user columns, while a matched row carries the
    columns of its item and of its user. *)
Theorem integrate_data_left_join (ratings : list Rating.t)
    (items : list Item.t) (users : list User.t) :
  NoDup (map Item.item_id items) ->
  NoDup (map User.user_id users) ->
  let final_data := integrate_data ratings items users in
  List.length final_data = List.length ratings
  /\ map Final.rating_part final_data = ratings
  /\ (forall row, In row final_data ->
        (~ In (Final.item_id row) (map Item.item_id items) ->
           Final.movie_title row = None /\ Final.release_year row = None
           /\ Final.genres row = None)
        /\ (~ In (Final.user_id row) (map User.user_id users) ->
              Final.age row = None /\ Final.gender row = None
              /\ Final.occupation row = None /\ Final.age_group row = None)
        /\ (forall i, In i items -> Item.item_id i = Final.item_id row ->
              Final.movie_title row = Item.movie_title i
              /\ Final.release_year row = Item.release_year i
              /\ Final.genres row = Item.genres i)
        /\ (forall u, In u users -> User.user_id u = Final.user_id row ->
              Final.age row = Some (User.age u)
              /\ Final.gender row = User.gender u
              /\ Final.occupation row = User.occupation u
              /\ Final.age_group row = User.age_group u)).
Proof.
  intros Hi Hu final_data. subst final_data.
  rewrite (integrate_data_rows _ _ _ Hi Hu).
  split; [apply length_map|].
  split.
  { rewrite map_map, (map_ext _ (fun r => r)) by apply integrate_row_rating_part.
    apply map_id. }
  intros row Hin. apply in_map_iff in Hin. destruct Hin as [r [<- _]].
  pose proof (integrate_row_rating_part items users r) as Hp.
  pose proof (integrate_row_item_columns items users r) as Hic.
  pose proof (integrate_row_user_columns items users r) as Huc.
  cbv zeta in Hic, Huc.
  assert (Hiid : Final.item_id (integrate_row items users r) = Rating.item_id r)
    by (rewrite <- Hp at 2; reflexivity).
  assert (Huid : Final.user_id (integrate_row items users r) = Rating.user_id r)
    by (rewrite <- Hp at 2; reflexivity).
  rewrite Hiid, Huid. repeat split.
  - rewrite (find_key_none Item.item_id _ _ H) in Hic. congruence.
  - rewrite (find_key_none Item.item_id _ _ H) in Hic. congruence.
  - rewrite (find_key_none Item.item_id _ _ H) in Hic. congruence.
  - rewrite (find_key_none User.user_id _ _ H) in Huc. congruence.
  - rewrite (find_key_none User.user_id _ _ H) in Huc. congruence.
  - rewrite (find_key_none User.user_id _ _ H) in Huc. congruence.
  - rewrite (find_key_none User.user_id _ _ H) in Huc. congruence.
  - rewrite (find_key_some Item.item_id _ _ _ Hi H H0) in Hic. congruence.
  - rewrite (find_key_some Item.item_id _ _ _ Hi H H0) in Hic. congruence.
  - rewrite (find_key_some Item.item_id _ _ _ Hi H H0) in Hic. congruence.
  - rewrite (find_key_some User.user_id _ _ _ Hu H H0) in Huc. congruence.
  - rewrite (find_key_some User.user_id _ _ _ Hu H H0) in Huc. congruence.
  - rewrite (find_key_some User.user_id _ _ _ Hu H H0) in Huc. congruence.
  - rewrite (find_key_some User.user_id _ _ _ Hu H H0) in Huc. congruence.
Qed.

Lemma integrate_data_left_join_witness :
  NoDup (map Item.item_id some_items)
  /\ NoDup (map User.user_id some_users)
  /\ List.length (integrate_data some_ratings some_items some_users) = 3%nat
  /\ map Final.rating_part (integrate_data some_ratings some_items some_users)
     = some_ratings.
Proof.
  assert (Hi : NoDup (map Item.item_id some_items))
    by (simpl; repeat constructor; simpl; intuition lia).
  assert (Hu : NoDup (map User.user_id some_users))
    by (simpl; repeat constructor; simpl; intuition lia).
  split; [exact Hi|]. split; [exact Hu|].
  destruct (integrate_data_left_join some_ratings some_items some_users Hi Hu)
    as (Hlen & Hpart & _).
  split; [exact Hlen | exact Hpart].
Defined.

(** ** Matrix builder *)





Lemma position_nth (x : Z) (l : list Z) :
  In x l -> exists a, position x l = Some a /\ nth_error l a = Some x.
Proof.
  induction l as [|y l IH]; simpl; [intros []|].
  intros Hin. destruct (Z.eqb_spec x y) as [->|Hne].
  - now exists O.
  - destruct Hin as [Heq | Hin]; [congruence|].
    destruct (IH Hin) as [a [Hp Hn]]. exists (S a). now rewrite Hp.
Qed.

Lemma position_None (x : Z) (l : list Z) :
  ~ In x l -> position x l = None.
Proof.
  induction l as [|y l IH]; simpl; [reflexivity|].
  intros Hn. destruct (Z.eqb_spec x y); [intuition congruence|].
  rewrite IH; tauto.
Qed.

(** Reading a table that was built label by label. *)
Lemma loc_tabulate {V} (idx cols : list Z) (f : Z -> Z -> V) (u i : Z) :
  In u idx -> In i cols ->
  loc (mkGrid idx cols (map (fun u => map (fun i => f u i) cols) idx)) u i
  = Some (f u i).
Proof.
  intros Hu Hi. unfold loc. cbn [index columns values].
  destruct (position_nth u idx Hu) as [a [-> Ha]].
  destruct (position_nth i cols Hi) as [b [-> Hb]].
  rewrite nth_error_map, Ha. cbn. now rewrite nth_error_map, Hb.
Qed.

Lemma loc_outside {V} (m : grid V) (u i : Z) :
  ~ In u (index m) \/ ~ In i (columns m) -> loc m u i = None.
Proof.
  unfold loc. intros [H | H].
  - now rewrite (position_None _ _ H).
  - rewrite (position_None _ _ H). now destruct (position u (index m)).
Qed.


Lemma user_item_matrix_loc (final_data : list Final.t) (u i : Z) :
  In u (index (user_item_matrix final_data)) ->
  In i (columns (user_item_matrix final_data)) ->
  loc (user_item_matrix final_data) u i = Some (cell_value final_data u i).
Proof.
  intros Hu Hi. unfold user_item_matrix, fillna, pivot_table in *.
  cbn [index columns values] in *.
  rewrite map_map.
  rewrite (map_ext _ (fun u => map (fun i => cell_value final_data u i)
                        (sorted_unique (map Final.item_id final_data)))).
  - now apply loc_tabulate.
  - intros a. rewrite map_map. reflexivity.
Qed.

Lemma nunique_pos (col : list Z) : col <> [] -> 0 < nunique col.
Proof.
  destruct col as [|x col]; [congruence|]. intros _.
  unfold nunique, drop_duplicates_by. simpl. lia.
Qed.

Lemma data_sparsity_value (svd_data : list triple) :
  svd_data <> [] ->
  data_sparsity svd_data
  = Ok ((1 - inject_Z (Z.of_nat (List.length svd_data))
             / inject_Z (nunique (map (fun t => fst (fst t)) svd_data)
                         * nunique (map (fun t => snd (fst t)) svd_data)))
        * 100)%Q.
Proof.
  intros Hne. unfold data_sparsity, sparsity_of. cbv zeta.
  match goal with
  | |- context [?a * ?b =? 0] =>
      assert (Hu : 0 < a)
        by (apply nunique_pos; destruct svd_data; [congruence | discriminate]);
      assert (Hi : 0 < b)
        by (apply nunique_pos; destruct svd_data; [congruence | discriminate]);
      destruct (Z.eqb_spec (a * b) 0); [nia | reflexivity]
  end.
Qed.

Lemma prepare_svd_data_ok (final_data : list Final.t) :
  final_data <> [] ->
  prepare_svd_data final_data
  = Ok (user_item_matrix final_data, svd_columns final_data).
Proof.
  intros Hne. unfold prepare_svd_data.
  rewrite data_sparsity_value; [reflexivity|].
  destruct final_data; [congruence | discriminate].
Qed.

Lemma prepare_svd_data_empty :
  prepare_svd_data [] = Raise ZeroDivisionError.
Proof. reflexivity. Qed.

Lemma group_ratings_triples (final_data : list Final.t) (u i r : Z) :
  In r (group_ratings final_data u i) <-> In (u, i, r) (svd_columns final_data).
Proof.
  unfold group_ratings, svd_columns. rewrite !in_map_iff. split.
  - intros [x [<- Hx]]. apply filter_In in Hx. destruct Hx as [Hx Hk].
    apply andb_true_iff in Hk. destruct Hk as [Hu Hi].
    apply Z.eqb_eq in Hu, Hi. subst. now exists x.
  - intros [x [Hx Hin]]. injection Hx as <- <- <-. exists x.
    split; [reflexivity|]. apply filter_In. now rewrite !Z.eqb_refl.
Qed.









(** ** Sparsity *)







(** ** Loader *)

Section LoaderFacts.
Context {L : Library}.



Lemma raises_false {A} (m : result A) :
  raises m = false -> exists a, m = Ok a.
Proof. destruct m as [a|e]; [now exists a | discriminate]. Qed.

Lemma raises_true {A} (m : result A) :
  raises m = true <-> exists e, m = Raise e.
Proof.
  destruct m as [a|e]; simpl; split; try discriminate.
  - intros [e H]. discriminate.
  - now exists e.
  - reflexivity.
Qed.









End LoaderFacts.

Lemma class_not_space (c : ascii) :
  Str.isspace c = true -> Str.in_date_class c = false.
Proof.
  destruct c as [[] [] [] [] [] [] [] []]; vm_compute; intros H;
    solve [reflexivity | discriminate H].
Qed.

Lemma filter_dropWhile {A} (p q : A -> bool) (l : list A) :
  (forall a, q a = true -> p a = false) ->
  filter p (Str.dropWhile q l) = filter p l.
Proof.
  intros H. induction l as [|x l IH]; simpl; [reflexivity|].
  destruct (q x) eqn:E; [|reflexivity].
  now rewrite (H x E).
Qed.

Lemma filter_reverse {A} (p : A -> bool) (l : list A) :
  filter p (rev l) = rev (filter p l).
Proof.
  induction l as [|x l IH]; simpl; [reflexivity|].
  rewrite filter_app, IH. simpl. destruct (p x); simpl;
    [reflexivity | now rewrite app_nil_r].
Qed.

Lemma keep_date_chars_strip (s : string) :
  Str.keep_date_chars (Str.strip s) = Str.keep_date_chars s.
Proof.
  unfold Str.keep_date_chars, Str.strip, Str.rstrip, Str.lstrip.
  rewrite StrFacts.chars_of_chars. f_equal.
  rewrite <- (rev_involutive (filter _ (rev _))), <- filter_reverse.
  rewrite rev_involutive, (filter_dropWhile _ _ _ class_not_space).
  rewrite filter_reverse, (filter_dropWhile _ _ _ class_not_space).
  apply rev_involutive.
Qed.








(** Two users files whose records all have the five declared fields and
    which the reader rejects: Latin-1 text read as UTF-8, and a quote
    that is never closed. *)
Example load_raw_data_reader_errors :
  load_raw_data (L := Sample.library) "data"
    (Sample.with_users Sample.u_user_latin1)
  = Raise UnicodeDecodeError
  /\ load_raw_data (L := Sample.library) "data"
       (Sample.with_users Sample.u_user_open_quote)
     = Raise (ParserError "EOF inside string").
Proof. split; reflexivity. Qed.

(** An empty line gives no row: the four lines of [Sample.u_data] load
    as three rows. *)
Example read_csv_blank_line :
  read_csv (L := Sample.library) Sample.data_files "data/u.data" tab
    default_encoding ratings_names []
  = Ok [[Some "1"; Some "1"; Some "5"; Some "874965758"];
        [Some "1"; Some "2"; Some "3"; Some "876893171"];
        [Some "2"; Some "1"; Some "4"; Some "888550871"]]%string.
Proof. reflexivity. Qed.

(** ** Worked examples *)

(** A repeated row and two ratings outside 1..5. *)
Example clean_ratings_data_example :
  clean_ratings_data
    (mkRatings Int64
       [Rating.mk 1 1 5 10; Rating.mk 1 2 0 20; Rating.mk 1 1 5 10;
        Rating.mk 2 1 6 30; Rating.mk 2 2 1 40])
  = mkRatings Datetime64
      [Rating.mk 1 1 5 10000000000; Rating.mk 2 2 1 40000000000].
Proof. reflexivity. Qed.

(** With every rating in range the guarded filter is skipped and the
    rows are kept as they are. *)
Example clean_ratings_data_all_valid :
  clean_ratings_data
    (mkRatings Int64 [Rating.mk 1 1 5 10; Rating.mk 1 2 1 20])
  = mkRatings Datetime64
      [Rating.mk 1 1 5 10000000000; Rating.mk 1 2 1 20000000000].
Proof. reflexivity. Qed.

(** The second film with [item_id] 1 is dropped; titles are trimmed and
    the year is read from the trailing "(1995)". *)
Example clean_items_data_example :
  map (fun r => (Item.item_id r, Item.movie_title r, Item.release_year r,
                 Item.genres r)) some_items
  = [(1, Some "Toy Story (1995)", Some 1995, Some "Comedy");
     (2, Some "GoldenEye (1995)", Some 1995, Some "Action")]%string.
Proof. reflexivity. Qed.

Example clean_users_data_example :
  some_users
  = [User.mk 1 24 (Some "M") (Some "technician") (Some "85711")
       (Some "18-24")]%string.
Proof. reflexivity. Qed.

(** The third rating finds neither film 9 nor user 7. *)
Example integrate_data_example :
  map (fun r => (Final.rating_part r, Final.movie_title r, Final.age r))
      (integrate_data some_ratings some_items some_users)
  = [(Rating.mk 1 1 5 874965758, Some "Toy Story (1995)"%string, Some 24);
     (Rating.mk 1 2 3 876893171, Some "GoldenEye (1995)"%string, Some 24);
     (Rating.mk 7 9 4 888550871, None, None)].
Proof. reflexivity. Qed.

(** Duplicate item keys do multiply the rating rows: the join itself
    does not protect the row count. *)
Example integrate_data_duplicate_items :
  List.length
    (integrate_data [Rating.mk 1 1 5 10]
       [Item.mk 1 None None None None no_flags None None;
        Item.mk 1 None None None None no_flags None None] [])
  = 2%nat.
Proof. reflexivity. Qed.

Example user_item_matrix_example :
  user_item_matrix (integrate_data some_ratings some_items some_users)
  = mkGrid [1; 7] [1; 2; 9]
      [[inject_Z 5 / inject_Z 1; inject_Z 3 / inject_Z 1; 0];
       [0; 0; inject_Z 4 / inject_Z 1]]%Q.
Proof. reflexivity. Qed.

Example extract_year_examples :
  Str.extract_year "Toy Story (1995)" = Some 1995
  /\ Str.extract_year "Toy Story (1995) " = None
  /\ Str.extract_year "1995" = None
  /\ Str.extract_year "Film (95)" = None.
Proof. repeat split. Qed.

(* ================================================================= *)
(** * Part III. Further properties of the pipeline *)
(* ================================================================= *)

(** ** Order and first occurrences *)

Lemma subsequence_refl {A} (l : list A) : subsequence l l.
Proof. induction l; [apply sub_nil | apply sub_keep]; assumption. Qed.

Lemma subsequence_trans {A} (a b c : list A) :
  subsequence a b -> subsequence b c -> subsequence a c.
Proof.
  intros Hab Hbc. revert a Hab.
  induction Hbc as [|x k l Hkl IH|x k l Hkl IH]; intros a Hab.
  - assumption.
  - apply sub_skip. now apply IH.
  - inversion Hab; subst.
    + apply sub_skip. now apply IH.
    + apply sub_keep. now apply IH.
Qed.

Lemma subsequence_filter {A} (p : A -> bool) (l : list A) :
  subsequence (filter p l) l.
Proof.
  induction l as [|x l IH]; simpl; [constructor|].
  destruct (p x); [apply sub_keep | apply sub_skip]; assumption.
Qed.

Lemma subsequence_map {A B} (f : A -> B) (k l : list A) :
  subsequence k l -> subsequence (map f k) (map f l).
Proof.
  induction 1; simpl; [apply sub_nil | apply sub_skip | apply sub_keep];
    assumption.
Qed.

Lemma subsequence_length {A} (k l : list A) :
  subsequence k l -> (List.length k <= List.length l)%nat.
Proof. induction 1; simpl; lia. Qed.

Lemma subsequence_In {A} (k l : list A) (x : A) :
  subsequence k l -> In x k -> In x l.
Proof. induction 1; simpl; intuition. Qed.

Lemma subsequence_drop_dups {A K} (key_eqb : K -> K -> bool) (key : A -> K)
    (seen : list K) (l : list A) :
  subsequence (drop_dups_from key_eqb key seen l) l.
Proof.
  revert seen. induction l as [|x l IH]; intros seen; simpl; [constructor|].
  destruct (seen_key key_eqb (key x) seen);
    [apply sub_skip | apply sub_keep]; apply IH.
Qed.

(** Looking a key up after the duplicates are removed finds the first
    row that had it. *)
Lemma find_drop_dups {A} (key : A -> Z) (seen : list Z) (l : list A) (k : Z) :
  ~ In k seen ->
  find (fun r => key r =? k) (drop_dups_from Z.eqb key seen l)
  = find (fun r => key r =? k) l.
Proof.
  revert seen. induction l as [|x l IH]; intros seen Hk; simpl; [reflexivity|].
  destruct (seen_key Z.eqb (key x) seen) eqn:E.
  - apply (seen_key_In Z.eqb Z.eqb_eq) in E.
    destruct (Z.eqb_spec (key x) k) as [Ek|Ek]; [congruence|].
    now apply IH.
  - simpl. destruct (Z.eqb_spec (key x) k) as [Ek|Ek]; [reflexivity|].
    apply IH. simpl. intuition.
Qed.

Lemma find_map_key {A} (key : A -> Z) (f : A -> A) (l : list A) (k : Z) :
  (forall r, key (f r) = key r) ->
  find (fun r => key r =? k) (map f l)
  = option_map f (find (fun r => key r =? k) l).
Proof.
  intros Hf. induction l as [|x l IH]; simpl; [reflexivity|].
  rewrite Hf. destruct (key x =? k); [reflexivity | assumption].
Qed.

Lemma drop_duplicates_by_keys {A} (key : A -> Z) (l : list A) (k : Z) :
  In k (map key (drop_duplicates_by Z.eqb key l)) <-> In k (map key l).
Proof.
  split.
  - intros H. apply in_map_iff in H. destruct H as [r [<- Hr]].
    apply in_map. now apply (drop_duplicates_by_In Z.eqb key Z.eqb_eq) in Hr.
  - intros H. apply in_map_iff in H. destruct H as [r [<- Hr]].
    now apply (drop_duplicates_by_keeps_key Z.eqb key Z.eqb_eq).
Qed.

(** X1. The cleaned items table has one row per [item_id] of the input
    and no other: its keys are unique, they are the keys of the input,
    and looking a key up in it gives the cleaned form of the first input
    row with that key; the rows keep their input order. *)
Theorem clean_items_data_first_kept (items : list Item.t) :
  NoDup (map Item.item_id (clean_items_data items))
  /\ (forall k, In k (map Item.item_id (clean_items_data items))
                <-> In k (map Item.item_id items))
  /\ (forall k,
        find (fun r => Item.item_id r =? k) (clean_items_data items)
        = option_map clean_item_row
            (find (fun r => Item.item_id r =? k) items))
  /\ (exists kept, subsequence kept items
                   /\ clean_items_data items = map clean_item_row kept).
Proof.
  split; [apply clean_items_keys|].
  rewrite clean_items_data_rows. split; [|split].
  - intros k. rewrite map_map.
    rewrite (map_ext _ Item.item_id) by apply clean_item_row_id.
    apply drop_duplicates_by_keys.
  - intros k. rewrite (find_map_key Item.item_id) by apply clean_item_row_id.
    unfold drop_duplicates_by. rewrite find_drop_dups; [reflexivity | intros []].
  - eexists. split; [|reflexivity]. apply subsequence_drop_dups.
Qed.

(** X2. The cleaned users table has one row per [user_id] of the input
    and no other: unique keys, the same set of keys, the cleaned first
    input row under each key, and the input order. *)
Theorem clean_users_data_first_kept (users : list User.t) :
  NoDup (map User.user_id (clean_users_data users))
  /\ (forall k, In k (map User.user_id (clean_users_data users))
                <-> In k (map User.user_id users))
  /\ (forall k,
        find (fun r => User.user_id r =? k) (clean_users_data users)
        = option_map clean_user_row
            (find (fun r => User.user_id r =? k) users))
  /\ (exists kept, subsequence kept users
                   /\ clean_users_data users = map clean_user_row kept).
Proof.
  split; [apply clean_users_keys|].
  rewrite clean_users_data_rows. split; [|split].
  - intros k. rewrite map_map.
    rewrite (map_ext _ User.user_id) by apply clean_user_row_id.
    apply drop_duplicates_by_keys.
  - intros k. rewrite (find_map_key User.user_id) by apply clean_user_row_id.
    unfold drop_duplicates_by. rewrite find_drop_dups; [reflexivity | intros []].
  - eexists. split; [|reflexivity]. apply subsequence_drop_dups.
Qed.

(** ** Ratings cleaner: counts and order *)

Lemma loaded_partition_length (l : list Loaded.row) :
  (List.length (filter Loaded.invalid_rating l)
   + List.length (filter Loaded.valid_rating l) <= List.length l)%nat
  /\ (Forall (fun r => Loaded.rating r <> None) l ->
      (List.length (filter Loaded.invalid_rating l)
       + List.length (filter Loaded.valid_rating l) = List.length l)%nat).
Proof.
  induction l as [|x l [IH1 IH2]]; [split; reflexivity|].
  assert (Hx : Loaded.invalid_rating x = true -> Loaded.valid_rating x = false).
  { unfold Loaded.invalid_rating, Loaded.valid_rating, Loaded.compare.
    destruct (Loaded.rating x); [lia | discriminate]. }
  split.
  - simpl. destruct (Loaded.invalid_rating x) eqn:Ei.
    + rewrite (Hx eq_refl). simpl. lia.
    + destruct (Loaded.valid_rating x); simpl; lia.
  - intros Hnn. inversion Hnn as [|y k Hy Hk]; subst.
    specialize (IH2 Hk). simpl.
    rewrite (loaded_invalid_negb x Hy).
    destruct (Loaded.valid_rating x); simpl; lia.
Qed.

(** X3. When the ratings cleaner returns, the three numbers it prints
    (duplicates removed, invalid ratings found, rows returned) are not
    negative and together never exceed the number of input rows; they
    add up to it when no rating is null, and when no rating is counted
    invalid the duplicates removed and the rows returned add up to
    it. *)
Theorem clean_ratings_counts_balance (ratings : Loaded.frame)
    (removed invalid returned : Z) :
  Loaded.clean_ratings_counts ratings = Ok (removed, invalid, returned) ->
  0 <= removed /\ 0 <= invalid /\ 0 <= returned
  /\ removed + invalid + returned
     <= Z.of_nat (List.length (Loaded.rows ratings))
  /\ (Forall (fun r => Loaded.rating r <> None) (Loaded.rows ratings) ->
      removed + invalid + returned
      = Z.of_nat (List.length (Loaded.rows ratings)))
  /\ (invalid = 0 ->
      removed + returned = Z.of_nat (List.length (Loaded.rows ratings))).
Proof.
  unfold Loaded.clean_ratings_counts, Loaded.clean_ratings_data.
  set (deduped := Loaded.drop_duplicates (Loaded.rows ratings)).
  destruct (map_result _ _) as [converted|e] eqn:E; [|discriminate].
  cbn [bind Loaded.rows]. intros H. injection H as <- <- <-.
  apply map_result_length in E.
  pose proof (subsequence_length _ _
                (subsequence_drop_dups Loaded.row_eqb (fun r => r) []
                   (Loaded.rows ratings))) as Hd.
  fold (drop_duplicates_by Loaded.row_eqb (fun r => r) (Loaded.rows ratings))
    in Hd.
  fold (Loaded.drop_duplicates (Loaded.rows ratings)) in Hd.
  fold deduped in Hd.
  destruct (loaded_partition_length deduped) as [Hle Heq].
  assert (Hnn : Forall (fun r => Loaded.rating r <> None) (Loaded.rows ratings)
                -> Forall (fun r => Loaded.rating r <> None) deduped).
  { intros Hall. apply Forall_forall. intros r Hr.
    rewrite Forall_forall in Hall. apply Hall.
    now apply loaded_drop_duplicates_In. }
  destruct (0 <? Z.of_nat (List.length (filter Loaded.invalid_rating deduped)))
    eqn:Eg.
  - apply Z.ltb_lt in Eg. repeat split; try lia.
    intros Hall. specialize (Heq (Hnn Hall)). lia.
  - apply Z.ltb_ge in Eg. repeat split; try lia.
Qed.

(** A null rating beside a rating of 6: both rows are dropped and one is
    counted, so the three numbers fall one short of the two input
    rows. *)
Lemma clean_ratings_counts_balance_witness :
  Loaded.clean_ratings_counts
    (Loaded.mkFrame Int64
       [Loaded.mkRow (Some 1) (Some 1) None (Some 10);
        Loaded.mkRow (Some 1) (Some 2) (Some 6) (Some 20)])
  = Ok (0, 1, 0)
  /\ 0 + 1 + 0 <= 2.
Proof.
  split; [reflexivity|].
  apply (clean_ratings_counts_balance
           (Loaded.mkFrame Int64
              [Loaded.mkRow (Some 1) (Some 1) None (Some 10);
               Loaded.mkRow (Some 1) (Some 2) (Some 6) (Some 20)])
           0 1 0 eq_refl).
Defined.

(** X4. The ratings cleaner keeps the input order: its rows are the
    converted forms of a subsequence of the input rows, so it returns at
    most as many rows as it was given. *)
Theorem clean_ratings_data_order (ratings : ratings_frame) :
  exists kept,
    subsequence kept (rows ratings)
    /\ rows (clean_ratings_data ratings)
       = map (convert_row (ts_kind ratings)) kept
    /\ (List.length (rows (clean_ratings_data ratings))
        <= List.length (rows ratings))%nat.
Proof.
  exists (filter valid_rating (drop_duplicates (rows ratings))).
  assert (Hs : subsequence (filter valid_rating (drop_duplicates (rows ratings)))
                 (rows ratings)).
  { eapply subsequence_trans; [apply subsequence_filter|].
    apply subsequence_drop_dups. }
  split; [exact Hs|]. split; [apply clean_ratings_rows|].
  rewrite clean_ratings_rows, length_map. now apply subsequence_length.
Qed.




(** ** Text of the cleaned tables *)

Lemma rstrip_last (l init : list ascii) (c : ascii) :
  Str.rstrip l = init ++ [c] -> Str.isspace c = false.
Proof.
  unfold Str.rstrip.
  destruct (StrFacts.dropWhile_head Str.isspace (rev l)) as [E | [x [t [E Hx]]]];
    rewrite E; simpl.
  - intros H. destruct init; discriminate.
  - intros H. apply app_inj_tail in H. destruct H as [_ <-]. exact Hx.
Qed.

Lemma rstrip_head (x : ascii) (t : list ascii) :
  Str.isspace x = false ->
  Str.rstrip (x :: t) = x :: rev (Str.dropWhile Str.isspace (rev t)).
Proof.
  intros Hx. unfold Str.rstrip. simpl rev.
  now rewrite (StrFacts.dropWhile_snoc _ _ _ Hx), rev_app_distr.
Qed.

Lemma strip_trimmed (s : string) : trimmed (Str.strip s).
Proof.
  unfold trimmed, Str.strip. rewrite StrFacts.chars_of_chars. split.
  - intros c rest. unfold Str.lstrip.
    destruct (StrFacts.dropWhile_head Str.isspace (Str.chars s))
      as [E | [x [t [E Hx]]]]; rewrite E.
    + discriminate.
    + rewrite (rstrip_head _ _ Hx). intros H. injection H as <- _. exact Hx.
  - intros c init. apply rstrip_last.
Qed.

Lemma lower_trimmed (s : string) : trimmed s -> trimmed (Str.lower s).
Proof.
  unfold trimmed, Str.lower. rewrite StrFacts.chars_of_chars.
  intros [Hfirst Hlast]. split.
  - intros c rest H. destruct (Str.chars s) as [|c0 l0]; [discriminate|].
    simpl in H. injection H as <- _.
    rewrite StrFacts.isspace_lower_char. now apply (Hfirst c0 l0).
  - intros c init H.
    destruct (rev (Str.chars s)) as [|c0 l0] eqn:E.
    + apply (f_equal (@rev ascii)) in E. rewrite rev_involutive in E.
      rewrite E in H. destruct init; discriminate.
    + apply (f_equal (@rev ascii)) in E. rewrite rev_involutive in E.
      simpl in E. rewrite E, map_app in H. simpl in H.
      apply app_inj_tail in H. destruct H as [_ <-].
      rewrite StrFacts.isspace_lower_char. now apply (Hlast c0 (rev l0)).
Qed.

Lemma lower_no_upper (c : ascii) : Str.isupper (Str.lower_char c) = false.
Proof. destruct c as [[] [] [] [] [] [] [] []]; reflexivity. Qed.

Lemma upper_no_lower (c : ascii) : Str.islower (Str.upper_char c) = false.
Proof. destruct c as [[] [] [] [] [] [] [] []]; reflexivity. Qed.

Lemma categorize_age_label (age : Z) : In (categorize_age age) age_groups.
Proof.
  unfold categorize_age, age_groups.
  repeat match goal with
         | |- context [if ?b then _ else _] => destruct b
         end; simpl; auto 7.
Qed.

Lemma in_clean_users (users : list User.t) (r : User.t) :
  In r (clean_users_data users) ->
  exists r0, In r0 users /\ r = clean_user_row r0.
Proof.
  rewrite clean_users_data_rows. intros H. apply in_map_iff in H.
  destruct H as [r0 [<- H0]]. exists r0. split; [|reflexivity].
  now apply (drop_duplicates_by_In Z.eqb User.user_id Z.eqb_eq) in H0.
Qed.

Lemma in_clean_items (items : list Item.t) (r : Item.t) :
  In r (clean_items_data items) ->
  exists r0, In r0 items /\ r = clean_item_row r0.
Proof.
  rewrite clean_items_data_rows. intros H. apply in_map_iff in H.
  destruct H as [r0 [<- H0]]. exists r0. split; [|reflexivity].
  now apply (drop_duplicates_by_In Z.eqb Item.item_id Z.eqb_eq) in H0.
Qed.

(** X6. In every row of the cleaned users table the age group is the
    label of the row's age, one of the six labels; the occupation, when
    present, holds none of the letters A to Z and no blank at either
    end; the gender, when present, holds none of the letters a to z; and
    the identifier, the age and the zip code are those of an input
    row. *)
Theorem clean_users_data_normalised (users : list User.t) (r : User.t) :
  In r (clean_users_data users) ->
  User.age_group r = Some (categorize_age (User.age r))
  /\ In (categorize_age (User.age r)) age_groups
  /\ (forall o, User.occupation r = Some o ->
        trimmed o /\ Forall (fun c => Str.isupper c = false) (Str.chars o))
  /\ (forall g, User.gender r = Some g ->
        Forall (fun c => Str.islower c = false) (Str.chars g))
  /\ (exists r0, In r0 users /\ User.user_id r = User.user_id r0
                 /\ User.age r = User.age r0
                 /\ User.zip_code r = User.zip_code r0).
Proof.
  intros Hin. destruct (in_clean_users users r Hin) as [r0 [H0 ->]].
  split; [reflexivity|]. split; [apply categorize_age_label|].
  split; [|split].
  - intros o Ho. cbn in Ho.
    destruct (User.occupation r0) as [s|]; [|discriminate].
    cbn in Ho. injection Ho as <-. split.
    + apply lower_trimmed, strip_trimmed.
    + unfold Str.lower. rewrite StrFacts.chars_of_chars.
      apply Forall_forall. intros c Hc. apply in_map_iff in Hc.
      destruct Hc as [c0 [<- _]]. apply lower_no_upper.
  - intros g Hg. cbn in Hg.
    destruct (User.gender r0) as [s|]; [|discriminate].
    cbn in Hg. injection Hg as <-.
    unfold Str.upper. rewrite StrFacts.chars_of_chars.
    apply Forall_forall. intros c Hc. apply in_map_iff in Hc.
    destruct Hc as [c0 [<- _]]. apply upper_no_lower.
  - exists r0. repeat split; assumption.
Qed.

Lemma clean_users_data_normalised_witness :
  In (User.mk 1 24 (Some "M") (Some "technician") (Some "85711")
        (Some "18-24"))%string some_users
  /\ trimmed "technician".
Proof.
  assert (Hin : In (User.mk 1 24 (Some "M") (Some "technician")
                      (Some "85711") (Some "18-24"))%string some_users)
    by (left; reflexivity).
  split; [exact Hin|].
  destruct (clean_users_data_normalised _ _ Hin) as (_ & _ & Ho & _).
  exact (proj1 (Ho "technician"%string eq_refl)).
Defined.

(** ** Derived columns of the items table *)

Lemma code_eq (c : ascii) (n : N) :
  N.eqb (Str.code c) n = true -> c = ascii_of_N n.
Proof.
  intros H. apply N.eqb_eq in H. unfold Str.code in H.
  now rewrite <- H, ascii_N_embedding.
Qed.

Lemma isdigit_val (d : ascii) :
  Str.isdigit d = true -> 0 <= Str.digit_val d <= 9.
Proof.
  unfold Str.isdigit, Str.between, Str.digit_val.
  rewrite andb_true_iff, !N.leb_le. lia.
Qed.

Lemma year_suffix_spec (rev_chars : list ascii) (y : Z) :
  Str.year_suffix rev_chars = Some y <->
  exists d1 d2 d3 d4 rest,
    rev_chars = ")"%char :: d4 :: d3 :: d2 :: d1 :: "("%char :: rest
    /\ Str.isdigit d1 = true /\ Str.isdigit d2 = true
    /\ Str.isdigit d3 = true /\ Str.isdigit d4 = true
    /\ y = 1000 * Str.digit_val d1 + 100 * Str.digit_val d2
           + 10 * Str.digit_val d3 + Str.digit_val d4.
Proof.
  split.
  - destruct rev_chars as [|rp [|d4 [|d3 [|d2 [|d1 [|lp rest]]]]]];
      try discriminate.
    simpl.
    destruct (N.eqb (Str.code rp) 41) eqn:Erp; [|discriminate].
    destruct (N.eqb (Str.code lp) 40) eqn:Elp; [|discriminate].
    destruct (Str.isdigit d1) eqn:E1; [|discriminate].
    destruct (Str.isdigit d2) eqn:E2; [|discriminate].
    destruct (Str.isdigit d3) eqn:E3; [|discriminate].
    destruct (Str.isdigit d4) eqn:E4; [|discriminate].
    simpl. intros H. injection H as <-.
    apply code_eq in Erp, Elp. subst rp lp.
    exists d1, d2, d3, d4, rest. repeat split; assumption.
  - intros (d1 & d2 & d3 & d4 & rest & -> & E1 & E2 & E3 & E4 & ->).
    simpl. change (N.eqb (Str.code ")") 41) with true.
    change (N.eqb (Str.code "(") 40) with true.
    now rewrite E1, E2, E3, E4.
Qed.

(** X7. The year read from a title: [extract_year] answers [y] exactly
    when the text ends, up to one final newline, with an opening
    parenthesis, four decimal digits and a closing parenthesis, [y]
    being the number the four digits write; so a year that is found lies
    between 0 and 9999. *)
Theorem extract_year_spec (s : string) (y : Z) :
  Str.extract_year s = Some y <->
  exists p d1 d2 d3 d4 nl,
    Str.chars s = p ++ ["("; d1; d2; d3; d4; ")"]%char ++ nl
    /\ (nl = [] \/ nl = [ascii_of_N 10])
    /\ Str.isdigit d1 = true /\ Str.isdigit d2 = true
    /\ Str.isdigit d3 = true /\ Str.isdigit d4 = true
    /\ y = 1000 * Str.digit_val d1 + 100 * Str.digit_val d2
           + 10 * Str.digit_val d3 + Str.digit_val d4
    /\ 0 <= y <= 9999.
Proof.
  unfold Str.extract_year. split.
  - destruct (rev (Str.chars s)) as [|c rest] eqn:E; [discriminate|].
    apply (f_equal (@rev ascii)) in E. rewrite rev_involutive in E.
    destruct (N.eqb (Str.code c) 10) eqn:Ec; intros H;
      apply year_suffix_spec in H;
      destruct H as (d1 & d2 & d3 & d4 & r & Hr & E1 & E2 & E3 & E4 & Hy).
    + apply code_eq in Ec. subst c rest.
      exists (rev r), d1, d2, d3, d4, [ascii_of_N 10].
      split.
      { rewrite E. simpl. now rewrite <- !app_assoc. }
      pose proof (isdigit_val _ E1). pose proof (isdigit_val _ E2).
      pose proof (isdigit_val _ E3). pose proof (isdigit_val _ E4).
      repeat split; auto; lia.
    + injection Hr as -> ->.
      exists (rev r), d1, d2, d3, d4, [].
      split.
      { rewrite E. simpl. now rewrite <- !app_assoc. }
      pose proof (isdigit_val _ E1). pose proof (isdigit_val _ E2).
      pose proof (isdigit_val _ E3). pose proof (isdigit_val _ E4).
      repeat split; auto; lia.
  - intros (p & d1 & d2 & d3 & d4 & nl & Hs & Hnl & E1 & E2 & E3 & E4 & Hy & _).
    rewrite Hs, !rev_app_distr.
    destruct Hnl as [-> | ->]; cbn -[Str.year_suffix];
      apply year_suffix_spec; exists d1, d2, d3, d4, (rev p);
      repeat split; assumption.
Qed.

Lemma join_head (sep a : string) (rest : list string) :
  exists tail, Str.join sep (a :: rest) = (a ++ tail)%string.
Proof.
  destruct rest as [|b rest]; simpl.
  - exists EmptyString. clear. induction a; simpl; congruence.
  - eexists. reflexivity.
Qed.

Lemma genre_name_not_sentinel (g : genre) (tail : string) :
  (genre_name g ++ tail)%string <> "Unknown"%string
  /\ (genre_name g ++ tail)%string <> EmptyString.
Proof. destruct g; simpl; split; discriminate. Qed.

Lemma filter_nil_iff {A} (p : A -> bool) (l : list A) :
  filter p l = [] <-> forall x, In x l -> p x = false.
Proof.
  induction l as [|x l IH]; simpl; [intuition|].
  destruct (p x) eqn:E; split.
  - discriminate.
  - intros H. specialize (H x (or_introl eq_refl)). congruence.
  - intros H y [<- | Hy]; [assumption | now apply IH].
  - intros H. apply IH. intros y Hy. apply H. now right.
Qed.

Lemma get_genres_sentinel (row : Item.t) :
  get_genres row <> EmptyString
  /\ (get_genres row = "Unknown"%string <->
      forall g, In g (tl genre_cols) ->
                Item.flag (Item.genre_flags row) g <> 1).
Proof.
  rewrite get_genres_active. unfold active_genres.
  destruct (filter _ (tl genre_cols)) as [|g gs] eqn:E.
  - split; [discriminate|]. split; [|reflexivity]. intros _ g Hg.
    apply (proj1 (filter_nil_iff _ _) E) in Hg. now apply Z.eqb_neq.
  - destruct (join_head ", " (genre_name g) (map genre_name gs)) as [tail Ht].
    cbn [map]. rewrite Ht.
    destruct (genre_name_not_sentinel g tail) as [Hu He].
    split; [exact He|]. split; [intros H; contradiction|].
    intros Hall. exfalso.
    assert (Hg : In g (filter (fun g => Item.flag (Item.genre_flags row) g =? 1)
                         (tl genre_cols))) by (rewrite E; now left).
    apply filter_In in Hg. destruct Hg as [Hin H1].
    apply Z.eqb_eq in H1. now apply (Hall g Hin).
Qed.

(** X8. In every row of the cleaned items table the title, when
    present, has no blank at either end; the release year is the year
    read from that trimmed title (null for a null title); the genres
    text is present and not empty, and it is "Unknown" exactly when none
    of the eighteen genre flags after [unknown] is 1; the identifier,
    the dates, the link and the flags are those of an input row. *)
Theorem clean_items_data_derived (items : list Item.t) (r : Item.t) :
  In r (clean_items_data items) ->
  (forall t, Item.movie_title r = Some t -> trimmed t)
  /\ Item.release_year r
     = match Item.movie_title r with
       | Some t => Str.extract_year t
       | None => None
       end
  /\ (exists g, Item.genres r = Some g /\ g <> EmptyString
        /\ (g = "Unknown"%string <->
            forall ge, In ge (tl genre_cols) ->
                       Item.flag (Item.genre_flags r) ge <> 1))
  /\ (exists r0, In r0 items /\ Item.item_id r = Item.item_id r0
        /\ Item.release_date r = Item.release_date r0
        /\ Item.video_release_date r = Item.video_release_date r0
        /\ Item.IMDb_URL r = Item.IMDb_URL r0
        /\ Item.genre_flags r = Item.genre_flags r0).
Proof.
  intros Hin. destruct (in_clean_items items r Hin) as [r0 [H0 ->]].
  split; [|split; [|split]].
  - intros t Ht. cbn in Ht.
    destruct (Item.movie_title r0) as [s|]; [|discriminate].
    cbn in Ht. injection Ht as <-. apply strip_trimmed.
  - reflexivity.
  - set (r1 := Item.set_release_year
                 (Item.set_movie_title r0
                    (option_map Str.strip (Item.movie_title r0)))
                 (match option_map Str.strip (Item.movie_title r0) with
                  | Some s => Str.extract_year s
                  | None => None
                  end)).
    exists (get_genres r1). split; [reflexivity|].
    exact (get_genres_sentinel r1).
  - exists r0. repeat split; assumption.
Qed.

Lemma clean_items_data_derived_witness :
  In (Item.mk 1 (Some "Toy Story (1995)"%string) None None None
        (Item.set_flag no_flags gComedy 1) (Some 1995)
        (Some "Comedy"%string)) (clean_items_data raw_items)
  /\ trimmed "Toy Story (1995)".
Proof.
  assert (Hin : In (Item.mk 1 (Some "Toy Story (1995)"%string) None None None
                      (Item.set_flag no_flags gComedy 1) (Some 1995)
                      (Some "Comedy"%string)) (clean_items_data raw_items))
    by (vm_compute; left; reflexivity).
  split; [exact Hin|].
  destruct (clean_items_data_derived raw_items _ Hin) as (Ht & _).
  exact (Ht "Toy Story (1995)"%string eq_refl).
Defined.

(** ** Release dates *)

Lemma filter_idem {A} (p : A -> bool) (l : list A) :
  filter p (filter p l) = filter p l.
Proof.
  induction l as [|x l IH]; simpl; [reflexivity|].
  destruct (p x) eqn:E; simpl; [rewrite E; now f_equal | assumption].
Qed.

(** X9. The cleaning of a release-date value does not depend on the
    trimming of line 48, since blanks are outside the character class of
    line 49; and cleaning a cleaned value again changes nothing. *)
Theorem clean_release_date_stable (v : cell) :
  clean_release_date v = Str.keep_date_chars (astype_str v)
  /\ clean_release_date (Some (clean_release_date v)) = clean_release_date v.
Proof.
  unfold clean_release_date. split; [apply keep_date_chars_strip|].
  cbn [astype_str]. rewrite !keep_date_chars_strip.
  unfold Str.keep_date_chars. rewrite StrFacts.chars_of_chars.
  now rewrite filter_idem.
Qed.

(** ** Integration without assumptions on the keys *)

Lemma subsequence_app_skip {A} (pre k l : list A) :
  subsequence k l -> subsequence k (pre ++ l).
Proof.
  intros H. induction pre as [|x pre IH]; simpl; [assumption|].
  now apply sub_skip.
Qed.

Section MergeProjection.
Context {L R O : Type}.
Variables (left_key : L -> Z) (right_key : R -> Z).
Variables (matched : L -> R -> O) (unmatched : L -> O) (proj : O -> L).
Hypothesis proj_matched : forall l r, proj (matched l r) = l.
Hypothesis proj_unmatched : forall l, proj (unmatched l) = l.

Lemma merge_left_projection (left : list L) (right : list R) :
  subsequence left
    (map proj (merge_left left_key right_key matched unmatched left right)).
Proof.
  unfold merge_left. induction left as [|l left IH]; cbn [flat_map map].
  - apply sub_nil.
  - rewrite map_app.
    destruct (matches left_key right_key l right) as [|r ms]; cbn [map app].
    + rewrite proj_unmatched. now apply sub_keep.
    + rewrite proj_matched. apply sub_keep.
      now apply subsequence_app_skip.
Qed.

Lemma merge_left_from_left (left : list L) (right : list R) (o : O) :
  In o (merge_left left_key right_key matched unmatched left right) ->
  In (proj o) left.
Proof.
  unfold merge_left. rewrite in_flat_map. intros [l [Hl Ho]].
  destruct (matches left_key right_key l right) as [|r ms].
  - destruct Ho as [<- | []]. now rewrite proj_unmatched.
  - apply in_map_iff in Ho. destruct Ho as [r' [<- _]].
    now rewrite proj_matched.
Qed.

End MergeProjection.

Lemma rated_item_part_with_user (r : RatedItem.t) (u : User.t) :
  rated_item_part (with_user r u) = r.
Proof. destruct r as [[] ? ? ?]. reflexivity. Qed.

Lemma rated_item_part_without_user (r : RatedItem.t) :
  rated_item_part (without_user r) = r.
Proof. destruct r as [[] ? ? ?]. reflexivity. Qed.

(** X10. Whatever the items and users tables hold, also with repeated
    keys, the integrator drops no rating row and invents none: the
    rating rows are, in order, a subsequence of the rating columns of
    the result, every row of the result carries the rating columns of
    some rating row, and the result has at least as many rows as the
    ratings. *)
Theorem integrate_data_keeps_ratings (ratings : list Rating.t)
    (items : list Item.t) (users : list User.t) :
  let final_data := integrate_data ratings items users in
  subsequence ratings (map Final.rating_part final_data)
  /\ (forall row, In row final_data -> In (Final.rating_part row) ratings)
  /\ (List.length ratings <= List.length final_data)%nat.
Proof.
  intros final_data. subst final_data. unfold integrate_data.
  set (first := merge_left Rating.item_id Item.item_id with_item without_item
                  ratings items).
  set (final := merge_left (fun r => Rating.user_id (RatedItem.base r))
                  User.user_id with_user without_user first users).
  assert (H1 : subsequence ratings (map RatedItem.base first)).
  { apply (merge_left_projection Rating.item_id Item.item_id with_item
             without_item RatedItem.base); reflexivity. }
  assert (H2 : subsequence first (map rated_item_part final)).
  { apply (merge_left_projection _ User.user_id with_user without_user
             rated_item_part).
    - apply rated_item_part_with_user.
    - apply rated_item_part_without_user. }
  assert (Hs : subsequence ratings (map Final.rating_part final)).
  { eapply subsequence_trans; [exact H1|].
    apply (subsequence_map RatedItem.base) in H2.
    now rewrite map_map in H2. }
  split; [exact Hs|]. split.
  - intros row Hrow.
    apply (merge_left_from_left _ User.user_id with_user without_user
             rated_item_part rated_item_part_with_user
             rated_item_part_without_user) in Hrow.
    apply (merge_left_from_left Rating.item_id Item.item_id with_item
             without_item RatedItem.base (fun _ _ => eq_refl)
             (fun _ => eq_refl)) in Hrow.
    exact Hrow.
  - apply subsequence_length in Hs. now rewrite length_map in Hs.
Qed.

(** ** The cleaners and the integrator together *)

Lemma svd_columns_rating_part (final_data : list Final.t) :
  svd_columns final_data = map triple_of (map Final.rating_part final_data).
Proof. unfold svd_columns. rewrite map_map. reflexivity. Qed.

Lemma integrate_cleaned_rows (ratings : list Rating.t) (items : list Item.t)
    (users : list User.t) :
  integrate_data ratings (clean_items_data items) (clean_users_data users)
  = map (integrate_row (clean_items_data items) (clean_users_data users))
        ratings.
Proof.
  apply integrate_data_rows; [apply clean_items_keys | apply clean_users_keys].
Qed.

Lemma integrate_cleaned_rating_part (ratings : list Rating.t)
    (items : list Item.t) (users : list User.t) :
  map Final.rating_part
      (integrate_data ratings (clean_items_data items) (clean_users_data users))
  = ratings.
Proof.
  rewrite integrate_cleaned_rows, map_map.
  rewrite (map_ext _ (fun r => r)) by apply integrate_row_rating_part.
  apply map_id.
Qed.

(** X11. Fed with the outputs of the items and users cleaners, whatever
    their inputs were, the integrator returns exactly one row per rating
    row, in order and with the rating columns unchanged, and the triple
    list made from its result is the list of the (user, item, rating)
    columns of the ratings. *)
Theorem integrate_cleaned_tables (ratings : list Rating.t)
    (items : list Item.t) (users : list User.t) :
  let final_data :=
    integrate_data ratings (clean_items_data items) (clean_users_data users) in
  List.length final_data = List.length ratings
  /\ map Final.rating_part final_data = ratings
  /\ svd_columns final_data = map triple_of ratings.
Proof.
  intros final_data. subst final_data.
  pose proof (integrate_cleaned_rating_part ratings items users) as Hp.
  split; [|split].
  - rewrite <- Hp at 2. now rewrite length_map.
  - exact Hp.
  - now rewrite svd_columns_rating_part, Hp.
Qed.

Lemma find_key_none_iff {A} (key : A -> Z) (l : list A) (k : Z) :
  find (fun r => key r =? k) l = None <-> ~ In k (map key l).
Proof.
  split; [|apply find_key_none].
  intros Hf Hin. apply in_map_iff in Hin. destruct Hin as [r [Hk Hr]].
  apply (find_none _ _ Hf) in Hr. simpl in Hr.
  apply Z.eqb_neq in Hr. contradiction.
Qed.

(** X12. In the table integrated from cleaned items and users, the two
    columns the cleaners derive are null for a missing join partner and
    for nothing else: the genres of a row are null exactly when its
    [item_id] is the key of no item, and its age group is null exactly
    when its [user_id] is the key of no user. *)
Theorem integrate_cleaned_nulls (ratings : list Rating.t)
    (items : list Item.t) (users : list User.t) (row : Final.t) :
  In row (integrate_data ratings (clean_items_data items)
            (clean_users_data users)) ->
  (Final.genres row = None
   <-> ~ In (Final.item_id row) (map Item.item_id items))
  /\ (Final.age_group row = None
      <-> ~ In (Final.user_id row) (map User.user_id users)).
Proof.
  rewrite integrate_cleaned_rows. intros Hin.
  apply in_map_iff in Hin. destruct Hin as [r [<- _]].
  set (ci := clean_items_data items). set (cu := clean_users_data users).
  pose proof (integrate_row_rating_part ci cu r) as Hp.
  pose proof (integrate_row_item_columns ci cu r) as Hic.
  pose proof (integrate_row_user_columns ci cu r) as Huc.
  cbv zeta in Hic, Huc.
  assert (Hiid : Final.item_id (integrate_row ci cu r) = Rating.item_id r)
    by (rewrite <- Hp at 2; reflexivity).
  assert (Huid : Final.user_id (integrate_row ci cu r) = Rating.user_id r)
    by (rewrite <- Hp at 2; reflexivity).
  rewrite Hiid, Huid.
  assert (Hik : forall k, In k (map Item.item_id ci)
                          <-> In k (map Item.item_id items)).
  { intros k. unfold ci. rewrite clean_items_data_rows, map_map.
    rewrite (map_ext _ Item.item_id) by apply clean_item_row_id.
    apply drop_duplicates_by_keys. }
  assert (Huk : forall k, In k (map User.user_id cu)
                          <-> In k (map User.user_id users)).
  { intros k. unfold cu. rewrite clean_users_data_rows, map_map.
    rewrite (map_ext _ User.user_id) by apply clean_user_row_id.
    apply drop_duplicates_by_keys. }
  rewrite <- Hik, <- Huk.
  rewrite <- (find_key_none_iff Item.item_id ci).
  rewrite <- (find_key_none_iff User.user_id cu).
  destruct (find (fun i => Item.item_id i =? Rating.item_id r) ci)
    as [i|] eqn:Ei;
    destruct (find (fun u => User.user_id u =? Rating.user_id r) cu)
      as [u|] eqn:Eu;
    injection Hic as _ _ Hg; injection Huc as _ _ _ Hag;
    rewrite Hg, Hag.
  all: try (apply find_some in Ei; destruct Ei as [Ei _];
            destruct (in_clean_items items i Ei) as [i0 [_ ->]]).
  all: try (apply find_some in Eu; destruct Eu as [Eu _];
            destruct (in_clean_users users u Eu) as [u0 [_ ->]]).
  all: cbn; repeat split; intros; try discriminate; try reflexivity;
    try congruence.
Qed.

Lemma integrate_cleaned_nulls_witness :
  In (Final.mk 7 9 4 888550871 None None None None None None None)
     (integrate_data some_ratings (clean_items_data raw_items)
        (clean_users_data raw_users))
  /\ ~ In 9 (map Item.item_id raw_items)
  /\ ~ In 7 (map User.user_id raw_users).
Proof.
  assert (Hin : In (Final.mk 7 9 4 888550871 None None None None None None
                      None)
                  (integrate_data some_ratings (clean_items_data raw_items)
                     (clean_users_data raw_users)))
    by (vm_compute; right; right; left; reflexivity).
  split; [exact Hin|].
  destruct (integrate_cleaned_nulls some_ratings raw_items raw_users _ Hin)
    as (Hg & Ha).
  split; [apply (proj1 Hg) | apply (proj1 Ha)]; reflexivity.
Defined.

(** ** Shape and values of the matrix *)





Lemma prepare_svd_data_result (final_data : list Final.t) (m : grid Q)
    (svd_data : list triple) :
  prepare_svd_data final_data = Ok (m, svd_data) ->
  final_data <> [] /\ m = user_item_matrix final_data
  /\ svd_data = svd_columns final_data.
Proof.
  intros H. destruct final_data as [|r l]; [discriminate|].
  split; [discriminate|].
  rewrite prepare_svd_data_ok in H by discriminate.
  injection H as <- <-. split; reflexivity.
Qed.



Lemma sum_Z_bounds (a b : Z) (l : list Z) :
  (forall x, In x l -> a <= x <= b) ->
  Z.of_nat (List.length l) * a <= sum_Z l <= Z.of_nat (List.length l) * b.
Proof.
  induction l as [|x l IH]; intros H; [simpl; lia|].
  unfold sum_Z in *. cbn [fold_right List.length].
  specialize (IH (fun y Hy => H y (or_intror Hy))).
  specialize (H x (or_introl eq_refl)). lia.
Qed.

Lemma mean_bounds (a b : Z) (l : list Z) (q : Q) :
  (forall x, In x l -> a <= x <= b) -> mean l = Some q ->
  (inject_Z a <= q)%Q /\ (q <= inject_Z b)%Q.
Proof.
  intros H Hm.
  assert (Hq : l <> []
               /\ q = (inject_Z (sum_Z l)
                       / inject_Z (Z.of_nat (List.length l)))%Q).
  { destruct l; [discriminate|]. split; [discriminate|].
    unfold mean in Hm. now injection Hm as <-. }
  destruct Hq as [Hne ->]. clear Hm.
  pose proof (sum_Z_bounds a b l H) as Hs.
  set (n := Z.of_nat (List.length l)) in *.
  assert (Hn : 0 < n) by (subst n; destruct l; [congruence | simpl; lia]).
  assert (Hnq : (0 < inject_Z n)%Q)
    by (change 0%Q with (inject_Z 0); rewrite <- Zlt_Qlt; exact Hn).
  split.
  - apply Qle_shift_div_l; [exact Hnq|].
    rewrite <- inject_Z_mult, <- Zle_Qle. lia.
  - apply Qle_shift_div_r; [exact Hnq|].
    rewrite <- inject_Z_mult, <- Zle_Qle. lia.
Qed.

(** X14. When every rating of the table is between 1 and 5, every cell
    of the matrix is either 0, and then no triple exists for its user
    and item, or a value between 1 and 5, and then a triple exists: the
    value 0 marks the unrated pairs and nothing else. *)
Theorem matrix_cells_in_range (final_data : list Final.t) (m : grid Q)
    (svd_data : list triple) :
  prepare_svd_data final_data = Ok (m, svd_data) ->
  (forall row, In row final_data -> 1 <= Final.rating row <= 5) ->
  forall u i q,
    loc m u i = Some q ->
    (q = 0%Q /\ forall r, ~ In (u, i, r) svd_data)
    \/ ((1 <= q)%Q /\ (q <= 5)%Q /\ exists r, In (u, i, r) svd_data).
Proof.
  intros H Hrange u i q Hloc.
  apply prepare_svd_data_result in H. destruct H as (_ & -> & ->).
  destruct (in_dec Z.eq_dec u (index (user_item_matrix final_data)))
    as [Hu|Hu];
    [|rewrite loc_outside in Hloc by (now left); discriminate].
  destruct (in_dec Z.eq_dec i (columns (user_item_matrix final_data)))
    as [Hi|Hi];
    [|rewrite loc_outside in Hloc by (now right); discriminate].
  rewrite (user_item_matrix_loc _ _ _ Hu Hi) in Hloc.
  injection Hloc as <-. unfold cell_value.
  destruct (mean (group_ratings final_data u i)) as [q|] eqn:Em.
  - right.
    destruct (mean_bounds 1 5 (group_ratings final_data u i) q) as [Hlo Hhi];
      [|exact Em|].
    + intros x Hx. unfold group_ratings in Hx. apply in_map_iff in Hx.
      destruct Hx as [row [<- Hrow]]. apply filter_In in Hrow.
      now apply Hrange.
    + split; [exact Hlo|]. split; [exact Hhi|].
      destruct (group_ratings final_data u i) as [|r l] eqn:Eg;
        [discriminate|].
      exists r. apply group_ratings_triples. rewrite Eg. now left.
  - left. split; [reflexivity|]. intros r Hr.
    apply group_ratings_triples in Hr.
    destruct (group_ratings final_data u i); [destruct Hr | discriminate].
Qed.

Lemma matrix_cells_in_range_witness :
  prepare_svd_data some_final
  = Ok (user_item_matrix some_final, svd_columns some_final)
  /\ (forall row, In row some_final -> 1 <= Final.rating row <= 5)
  /\ loc (user_item_matrix some_final) 7 1 = Some 0%Q
  /\ forall r, ~ In (7, 1, r) (svd_columns some_final).
Proof.
  assert (H : prepare_svd_data some_final
              = Ok (user_item_matrix some_final, svd_columns some_final))
    by (vm_compute; reflexivity).
  assert (Hr : forall row, In row some_final -> 1 <= Final.rating row <= 5).
  { vm_compute. intros row [<- | [<- | [<- | []]]]; split; discriminate. }
  assert (Hl : loc (user_item_matrix some_final) 7 1 = Some 0%Q)
    by (vm_compute; reflexivity).
  split; [exact H|]. split; [exact Hr|]. split; [exact Hl|].
  destruct (matrix_cells_in_range _ _ _ H Hr 7 1 0%Q Hl)
    as [[_ Hnone] | [Hone _]]; [exact Hnone|].
  exfalso. revert Hone. vm_compute. intros Hc. now apply Hc.
Defined.

(** ** Bounds of the sparsity *)






(** ** Frames read by the loader *)

Section LoaderShape.
Context {L : Library}.



End LoaderShape.



(** ** Persister and whole run *)

Lemma append_cancel_l (s a b : string) :
  (s ++ a)%string = (s ++ b)%string -> a = b.
Proof.
  induction s as [|c s IH]; simpl; [trivial|].
  intros H. injection H as H. now apply IH.
Qed.

Lemma path_join_inj (dir a b : string) :
  path_join dir a = path_join dir b -> a = b.
Proof.
  unfold path_join. intros H. apply append_cancel_l in H.
  simpl in H. now injection H.
Qed.

Lemma fs_lookup_write (p q : string) (f : file) (fs : filesystem) :
  fs_lookup (fs_write p f fs) q
  = if String.eqb p q then Some f else fs_lookup fs q.
Proof. reflexivity. Qed.

Lemma fs_lookup_write_other (dir a b : string) (f : file) (fs : filesystem) :
  a <> b ->
  fs_lookup (fs_write (path_join dir a) f fs) (path_join dir b)
  = fs_lookup fs (path_join dir b).
Proof.
  intros Hab. rewrite fs_lookup_write.
  destruct (String.eqb_spec (path_join dir a) (path_join dir b)) as [E|E];
    [|reflexivity].
  apply path_join_inj in E. contradiction.
Qed.

Lemma fs_lookup_write_same (p : string) (f : file) (fs : filesystem) :
  fs_lookup (fs_write p f fs) p = Some f.
Proof. rewrite fs_lookup_write. now rewrite String.eqb_refl. Qed.

Section Persister.
Context {L : Library}.

Lemma save_cleaned_data_other (data_dir : string) (out : outputs)
    (fs : filesystem) (p : string) :
  (forall name, In name output_names -> p <> path_join data_dir name) ->
  fs_lookup (save_cleaned_data data_dir out fs) p = fs_lookup fs p.
Proof.
  intros Hp. destruct out as [[final_data svd_data] m].
  unfold save_cleaned_data. rewrite !fs_lookup_write.
  repeat match goal with
         | |- context [String.eqb ?a p] =>
             let E := fresh "E" in
             destruct (String.eqb_spec a p) as [E|E];
             [exfalso; symmetry in E; revert E; apply Hp; simpl; auto|]
         end.
  reflexivity.
Qed.

(** X17. After [save_cleaned_data] each of the three output files holds
    the rendering of its own frame, whatever the directory and whatever
    was stored under those names before; every other path, and so each
    of the three input files, holds what it held. *)
Theorem save_cleaned_data_files (data_dir : string)
    (final_data : list Final.t) (svd_data : list triple) (m : grid Q)
    (fs : filesystem) :
  let fs' := save_cleaned_data data_dir (final_data, svd_data, m) fs in
  fs_lookup fs' (path_join data_dir "final_data_cleaned.csv")
  = Some (to_csv_final final_data)
  /\ fs_lookup fs' (path_join data_dir "svd_data.csv")
     = Some (to_csv_svd svd_data)
  /\ fs_lookup fs' (path_join data_dir "user_item_matrix.csv")
     = Some (to_csv_matrix m)
  /\ (forall p,
        (forall name, In name output_names -> p <> path_join data_dir name) ->
        fs_lookup fs' p = fs_lookup fs p)
  /\ (forall name, In name (map fst schema) ->
        fs_lookup fs' (path_join data_dir name)
        = fs_lookup fs (path_join data_dir name)).
Proof.
  intros fs'. subst fs'. unfold save_cleaned_data.
  split; [|split; [|split; [|split]]].
  - rewrite !fs_lookup_write_other by discriminate.
    apply fs_lookup_write_same.
  - rewrite fs_lookup_write_other by discriminate.
    apply fs_lookup_write_same.
  - apply fs_lookup_write_same.
  - intros p Hp.
    now apply (save_cleaned_data_other data_dir (final_data, svd_data, m)).
  - intros name Hin.
    apply (save_cleaned_data_other data_dir (final_data, svd_data, m)).
    intros out Hout E. apply path_join_inj in E. subst out.
    simpl in Hin, Hout.
    destruct Hin as [<- | [<- | [<- | []]]];
      destruct Hout as [E | [E | [E | []]]]; discriminate E.
Qed.



End Persister.


(** ** Quality inspection and the cleaners *)

Lemma duplicated_count {A K} (key_eqb : K -> K -> bool) (key : A -> K)
    (seen : list K) (l : list A) :
  count_true (duplicated_from key_eqb key seen l)
  + Z.of_nat (List.length (drop_dups_from key_eqb key seen l))
  = Z.of_nat (List.length l).
Proof.
  unfold count_true. revert seen.
  induction l as [|x l IH]; intros seen; [reflexivity|].
  pose proof (IH seen) as H1. pose proof (IH (key x :: seen)) as H2.
  cbn [duplicated_from drop_dups_from].
  destruct (seen_key key_eqb (key x) seen); cbn [filter List.length];
    rewrite !Nat2Z.inj_succ; lia.
Qed.

Lemma option_eqb_eq {A} (eqb : A -> A -> bool) (a b : option A) :
  (forall x y, eqb x y = true <-> x = y) ->
  option_eqb eqb a b = true <-> a = b.
Proof.
  intros H. destruct a as [x|], b as [y|]; simpl;
    try (split; [discriminate | discriminate]); [|tauto].
  rewrite H. split; [now intros -> | now intros [= ->]].
Qed.

Lemma date_eqb_eq (a b : date) : date_eqb a b = true <-> a = b.
Proof.
  destruct a, b. unfold date_eqb. simpl.
  rewrite !andb_true_iff, !Z.eqb_eq. split.
  - intros [[-> ->] ->]. reflexivity.
  - intros [= -> -> ->]. auto.
Qed.

Lemma flags_eqb_eq (a b : Item.flags) : flags_eqb a b = true <-> a = b.
Proof.
  split.
  - destruct a, b. unfold flags_eqb. simpl.
    rewrite !andb_true_iff, !Z.eqb_eq. intros H.
    repeat match goal with
           | H : _ /\ _ |- _ => destruct H
           end.
    subst. reflexivity.
  - intros ->. unfold flags_eqb. apply forallb_forall.
    intros g _. apply Z.eqb_refl.
Qed.

Lemma item_row_eqb_eq (a b : Item.t) : item_row_eqb a b = true <-> a = b.
Proof.
  destruct a, b. unfold item_row_eqb. simpl.
  rewrite !andb_true_iff, Z.eqb_eq, flags_eqb_eq.
  rewrite !(option_eqb_eq String.eqb) by apply String.eqb_eq.
  rewrite (option_eqb_eq date_eqb) by apply date_eqb_eq.
  rewrite (option_eqb_eq Z.eqb) by apply Z.eqb_eq.
  split.
  - intros [[[[[[[-> ->] ->] ->] ->] ->] ->] ->]. reflexivity.
  - intros [= -> -> -> -> -> -> -> ->]. repeat split.
Qed.

Lemma user_row_eqb_eq (a b : User.t) : user_row_eqb a b = true <-> a = b.
Proof.
  destruct a, b. unfold user_row_eqb. simpl.
  rewrite !andb_true_iff, !Z.eqb_eq.
  rewrite !(option_eqb_eq String.eqb) by apply String.eqb_eq.
  split.
  - intros [[[[[-> ->] ->] ->] ->] ->]. reflexivity.
  - intros [= -> -> -> -> -> ->]. repeat split.
Qed.

(** Removing rows by key leaves at most as many rows as removing whole
    duplicates does. *)
Lemma key_dedup_shorter {A} (row_eqb : A -> A -> bool) (key : A -> Z)
    (l : list A) :
  (forall a b, row_eqb a b = true <-> a = b) ->
  (List.length (drop_duplicates_by Z.eqb key l)
   <= List.length (drop_duplicates_by row_eqb (fun r => r) l))%nat.
Proof.
  intros Hrow. apply NoDup_incl_length.
  - apply (NoDup_map_inv key).
    apply (drop_duplicates_by_NoDup Z.eqb key Z.eqb_eq).
  - intros r Hr.
    apply (drop_duplicates_by_In Z.eqb key Z.eqb_eq) in Hr.
    pose proof (drop_duplicates_by_keeps_key row_eqb (fun r => r) Hrow l r Hr)
      as H.
    now rewrite map_id in H.
Qed.

(** X19. The duplicate counts of the quality report agree with what the
    cleaners remove: the number of duplicate ratings reported is the
    number the ratings cleaner prints as removed, and the numbers of
    duplicate items and users reported, which compare whole rows, are at
    most the numbers of rows the items and users cleaners remove, which
    compare keys only. *)
Theorem inspect_duplicates_agree (ratings : ratings_frame)
    (items : list Item.t) (users : list User.t) :
  let report := inspect_data_quality ratings items users in
  duplicate_ratings report = fst (clean_ratings_counts ratings)
  /\ duplicate_items report
     <= Z.of_nat (List.length items)
        - Z.of_nat (List.length (clean_items_data items))
  /\ duplicate_users report
     <= Z.of_nat (List.length users)
        - Z.of_nat (List.length (clean_users_data users)).
Proof.
  cbn [inspect_data_quality duplicate_ratings duplicate_items duplicate_users
       clean_ratings_counts fst].
  unfold duplicated_by, drop_duplicates, drop_duplicates_by.
  pose proof (duplicated_count Rating.eqb (fun r => r) [] (rows ratings)) as Hr.
  pose proof (duplicated_count item_row_eqb (fun r => r) [] items) as Hi.
  pose proof (duplicated_count user_row_eqb (fun r => r) [] users) as Hu.
  pose proof (key_dedup_shorter item_row_eqb Item.item_id items item_row_eqb_eq)
    as Hki.
  pose proof (key_dedup_shorter user_row_eqb User.user_id users user_row_eqb_eq)
    as Hku.
  unfold drop_duplicates_by in Hki, Hku.
  rewrite clean_items_data_rows, clean_users_data_rows, !length_map.
  unfold drop_duplicates_by. lia.
Qed.








(** ** What trimming removes *)

Lemma dropWhile_split {A} (p : A -> bool) (l : list A) :
  exists pre, l = pre ++ Str.dropWhile p l /\ Forall (fun a => p a = true) pre.
Proof.
  induction l as [|x l [pre [Hl Hp]]]; simpl.
  - exists []. split; [reflexivity | constructor].
  - destruct (p x) eqn:E.
    + exists (x :: pre). split; [simpl; now f_equal | now constructor].
    + exists []. split; [reflexivity | constructor].
Qed.

Lemma strip_split (s : string) :
  exists pre post,
    Str.chars s = pre ++ Str.chars (Str.strip s) ++ post
    /\ Forall (fun c => Str.isspace c = true) pre
    /\ Forall (fun c => Str.isspace c = true) post.
Proof.
  unfold Str.strip. rewrite StrFacts.chars_of_chars.
  unfold Str.lstrip, Str.rstrip.
  destruct (dropWhile_split Str.isspace (Str.chars s)) as [pre [Hs Hpre]].
  set (mid := Str.dropWhile Str.isspace (Str.chars s)) in *.
  destruct (dropWhile_split Str.isspace (rev mid)) as [tail [Hm Htail]].
  exists pre, (rev tail). split; [|split].
  - rewrite Hs at 1. f_equal.
    transitivity (rev (rev mid)); [symmetry; apply rev_involutive|].
    rewrite Hm at 1. apply rev_app_distr.
  - exact Hpre.
  - apply Forall_forall. intros c Hc. apply in_rev in Hc.
    rewrite Forall_forall in Htail. now apply Htail.
Qed.

Lemma clean_item_row_title (r0 : Item.t) :
  Item.movie_title (clean_item_row r0)
  = option_map Str.strip (Item.movie_title r0).
Proof. reflexivity. Qed.

(** X21. The items cleaner changes a title only by removing blanks at
    its two ends: every cleaned row comes from an input row with the
    same [item_id] whose title is the cleaned title with blank
    characters before and after it, a null title staying null. *)
Theorem clean_items_data_titles (items : list Item.t) (r : Item.t) :
  In r (clean_items_data items) ->
  exists r0,
    In r0 items /\ Item.item_id r = Item.item_id r0
    /\ ((Item.movie_title r0 = None /\ Item.movie_title r = None)
        \/ exists s t pre post,
             Item.movie_title r0 = Some s /\ Item.movie_title r = Some t
             /\ Str.chars s = pre ++ Str.chars t ++ post
             /\ Forall (fun c => Str.isspace c = true) pre
             /\ Forall (fun c => Str.isspace c = true) post).
Proof.
  intros Hin. destruct (in_clean_items items r Hin) as [r0 [H0 ->]].
  exists r0. split; [assumption|]. split; [reflexivity|].
  rewrite clean_item_row_title.
  destruct (Item.movie_title r0) as [s|]; cbn [option_map];
    [right | left; split; reflexivity].
  destruct (strip_split s) as (pre & post & Hs & Hpre & Hpost).
  exists s, (Str.strip s), pre, post.
  split; [reflexivity|]. split; [reflexivity|].
  split; [exact Hs|]. split; [exact Hpre | exact Hpost].
Qed.

Lemma clean_items_data_titles_witness :
  In (Item.mk 1 (Some "Toy Story (1995)"%string) None None None
        (Item.set_flag no_flags gComedy 1) (Some 1995)
        (Some "Comedy"%string)) (clean_items_data raw_items)
  /\ exists r0,
       In r0 raw_items /\ 1 = Item.item_id r0
       /\ ((Item.movie_title r0 = None
            /\ Some "Toy Story (1995)"%string = None)
           \/ exists s t pre post,
                Item.movie_title r0 = Some s
                /\ Some "Toy Story (1995)"%string = Some t
                /\ Str.chars s = pre ++ Str.chars t ++ post
                /\ Forall (fun c => Str.isspace c = true) pre
                /\ Forall (fun c => Str.isspace c = true) post).
Proof.
  assert (Hin : In (Item.mk 1 (Some "Toy Story (1995)"%string) None None None
                      (Item.set_flag no_flags gComedy 1) (Some 1995)
                      (Some "Comedy"%string)) (clean_items_data raw_items))
    by (vm_compute; left; reflexivity).
  split; [exact Hin|].
  exact (clean_items_data_titles raw_items _ Hin).
Defined.
